(** * bulk_api: the route handlers of [index.js] and the HTTP contract they meet

    [index.js] registers one Express callback per route.  Each callback reads
    [req.params] and [req.body], hands one or two statements to the MySQL
    pool ([pool.query]) and answers from inside the pool's callback.

    The development follows that shape:
    - [JS]       the JavaScript values and coercions the handlers rely on
                 (template literals, [parseInt], [isNaN], [!=], truthiness);
    - [Mysql]    what [pool.query] is given and what its callback receives;
    - [Express]  requests, responses, handler bodies as trees of pool calls,
                 and the run of a handler against a query executor;
    - one module per resource with the handlers, in the order of the file;
    - [MemDb]    a reference query executor for bound statements;
    - the properties of the handlers. *)

From Stdlib Require Import ZArith String Ascii List Lia.
From Stdlib Require Import DecimalString HexadecimalString DecimalPos.
From stdpp Require Import gmap strings list.

Open Scope Z_scope.

(* ===================================================================== *)
(** ** JavaScript values and coercions *)
(* ===================================================================== *)

Module JS.

(** Numbers.  A number held by a value is [NaN] or an integer: identifiers,
    counts and what [parseInt] returns.  An integer stands for the double
    of that value, which exists for every integer of the safe range (see
    [safe_integer]); there [parseInt], [NumberToString] and the comparisons
    below give what JavaScript gives.  Beyond that range JavaScript rounds
    to the nearest double and prints large numbers with an exponent, which
    is not modelled: the properties that read or print a number ask for the
    safe range.  Fractional numbers in a body (a price such as 12.5) are
    outside the values modelled. *)
Inductive number := NaN | Int (z : Z).

(** The integers every one of which is a double: magnitude at most 2^53. *)
Definition safe_integer (z : Z) : bool := Z.abs z <=? 2 ^ 53.

Definition safe_number (n : number) : bool :=
  match n with
  | NaN => true
  | Int z => safe_integer z
  end.

(** The scalar values a JSON body, a path parameter or a column can hold.
    [VUndefined] is what reading an absent property gives. *)
Inductive value :=
| VUndefined
| VNull
| VBool (b : bool)
| VNumber (n : number)
| VString (s : string).

(** The values whose number, if they hold one, is of the safe range. *)
Definition safe_value (v : value) : bool :=
  match v with
  | VNumber n => safe_number n
  | _ => true
  end.

Definition number_eqb (a b : number) : bool :=
  match a, b with
  | Int x, Int y => x =? y
  | _, _ => false                       (* NaN equals nothing, itself included *)
  end.

(** [Number::toString], radix 10: the decimal digits, which is what
    JavaScript prints for every integer double below 10^21. *)
Definition NumberToString (n : number) : string :=
  match n with
  | NaN => "NaN"
  | Int z => DecimalString.NilZero.string_of_int (Z.to_int z)
  end.

(** [ToString], as applied by [${...}] in a template literal. *)
Definition ToString (v : value) : string :=
  match v with
  | VUndefined => "undefined"
  | VNull => "null"
  | VBool true => "true"
  | VBool false => "false"
  | VNumber n => NumberToString n
  | VString s => s
  end.

(** [ToBoolean], as applied by [!x], [x || y] and [if (x)]. *)
Definition ToBoolean (v : value) : bool :=
  match v with
  | VUndefined | VNull => false
  | VBool b => b
  | VNumber NaN => false
  | VNumber (Int z) => negb (z =? 0)
  | VString s => negb (String.eqb s "")
  end.

(** [x || y] on values: the left operand when it is truthy. *)
Definition or_else (x y : value) : value := if ToBoolean x then x else y.

(** A template literal: literal chunks and substitutions, left to right. *)
Inductive piece := Lit (s : string) | Sub (v : value).

Fixpoint template (ps : list piece) : string :=
  match ps with
  | [] => ""
  | Lit s :: ps' => s +:+ template ps'
  | Sub v :: ps' => ToString v +:+ template ps'
  end.

(** Strings are sequences of bytes, the UTF-8 form of the text. *)

(** White space and line terminators among the single-byte characters. *)
Definition is_white_space (a : ascii) : bool :=
  let n := nat_of_ascii a in
  ((9 <=? n) && (n <=? 13))%nat || (n =? 32)%nat.

(** White space of two bytes: U+00A0. *)
Definition is_white_space2 (a b : ascii) : bool :=
  ((nat_of_ascii a =? 194) && (nat_of_ascii b =? 160))%nat.

(** White space and line terminators of three bytes: U+1680, U+2000 to
    U+200A, U+2028, U+2029, U+202F, U+205F, U+3000 and U+FEFF. *)
Definition is_white_space3 (a b c : ascii) : bool :=
  let x := nat_of_ascii a in
  let y := nat_of_ascii b in
  let z := nat_of_ascii c in
  (((x =? 225) && (y =? 154) && (z =? 128))
   || ((x =? 226) && (y =? 128)
       && (((128 <=? z) && (z <=? 138)) || (z =? 168) || (z =? 169) || (z =? 175)))
   || ((x =? 226) && (y =? 129) && (z =? 159))
   || ((x =? 227) && (y =? 128) && (z =? 128))
   || ((x =? 239) && (y =? 187) && (z =? 191)))%nat.

(** What is left once the white space and line terminators at the start are
    taken off.  With [reversed] the bytes are read from the end of the
    text, so the bytes of a character come last byte first. *)
Fixpoint strip_white_space (reversed : bool) (s : string) : string :=
  match s with
  | String a s1 =>
      if is_white_space a then strip_white_space reversed s1
      else if (128 <=? nat_of_ascii a)%nat then
        match s1 with
        | String b s2 =>
            if (if reversed then is_white_space2 b a else is_white_space2 a b)
            then strip_white_space reversed s2
            else
              match s2 with
              | String c s3 =>
                  if (if reversed then is_white_space3 c b a
                      else is_white_space3 a b c)
                  then strip_white_space reversed s3
                  else s
              | EmptyString => s
              end
        | EmptyString => s
        end
      else s
  | EmptyString => EmptyString
  end.

Definition trim_start (s : string) : string := strip_white_space false s.

Definition trim (s : string) : string :=
  String.rev (strip_white_space true (String.rev (trim_start s))).

(** The longest prefix of decimal (hexadecimal) digits of a string. *)
Fixpoint read_decimal (s : string) : Decimal.uint :=
  match s with
  | EmptyString => Decimal.Nil
  | String a s' =>
      match DecimalString.uint_of_char a (Some (read_decimal s')) with
      | Some d => d
      | None => Decimal.Nil
      end
  end.

Definition hex_lower (a : ascii) : ascii :=
  let n := nat_of_ascii a in
  if ((65 <=? n) && (n <=? 70))%nat then ascii_of_nat (n + 32) else a.

Fixpoint read_hex (s : string) : Hexadecimal.uint :=
  match s with
  | EmptyString => Hexadecimal.Nil
  | String a s' =>
      match HexadecimalString.uint_of_char (hex_lower a) (Some (read_hex s')) with
      | Some d => d
      | None => Hexadecimal.Nil
      end
  end.

Definition split_sign (s : string) : bool * string :=
  match s with
  | String "-" r => (true, r)
  | String "+" r => (false, r)
  | _ => (false, s)
  end.

Definition apply_sign (neg : bool) (m : Z) : Z := if neg then - m else m.

(** The digits after the sign: a [0x] prefix selects radix 16, the longest
    run of digits is read and what follows it is ignored. *)
Definition parse_unsigned (neg : bool) (s1 : string) : number :=
  match s1 with
  | String "0" (String "x" r) | String "0" (String "X" r) =>
      match read_hex r with
      | Hexadecimal.Nil => NaN
      | h => Int (apply_sign neg (Z.of_hex_uint h))
      end
  | _ =>
      match read_decimal s1 with
      | Decimal.Nil => NaN
      | d => Int (apply_sign neg (Z.of_uint d))
      end
  end.

(** [parseInt(string)] with no radix: leading white space and a sign are
    skipped, then the digits are read; no digit at all gives [NaN].  The
    integer is the one the digits denote, which is what JavaScript returns
    when it is of the safe range. *)
Definition parseInt_string (s : string) : number :=
  let (neg, s1) := split_sign (trim_start s) in
  parse_unsigned neg s1.

(** [parseInt(v)]: the argument goes through [ToString] first. *)
Definition parseInt (v : value) : number := parseInt_string (ToString v).

(** Digits of a literal in radix 2 or 8, all of the string. *)
Fixpoint radix_value (radix acc : Z) (s : string) : option Z :=
  match s with
  | EmptyString => Some acc
  | String a s' =>
      let d := Z.of_nat (nat_of_ascii a) - 48 in
      if (0 <=? d) && (d <? radix) then radix_value radix (acc * radix + d) s'
      else None
  end.

Definition nonempty (s : string) : bool := negb (String.eqb s "").

(** A string made of hexadecimal digits only. *)
Fixpoint hex_literal (s : string) : option Hexadecimal.uint :=
  match s with
  | EmptyString => Some Hexadecimal.Nil
  | String a s' => HexadecimalString.uint_of_char (hex_lower a) (hex_literal s')
  end.

(** What a conversion to number gives: [NaN], an integer, or a number that
    is not an integer (a fraction or an infinity), whose value is not
    needed. *)
Inductive converted := IsNaN | IsInt (z : Z) | IsOther.

(** The longest prefix of decimal digits of a string, and what follows. *)
Fixpoint span_digits (s : string) : string * string :=
  match s with
  | EmptyString => (EmptyString, EmptyString)
  | String a s' =>
      let n := nat_of_ascii a in
      if ((48 <=? n) && (n <=? 57))%nat
      then let (ds, rest) := span_digits s' in (String a ds, rest)
      else (EmptyString, s)
  end.

Definition digits_value (ds : string) : Z := default 0 (radix_value 10 0 ds).

(** [ExponentPart], or nothing: the exponent it denotes. *)
Definition exponent_part (s : string) : option Z :=
  match s with
  | EmptyString => Some 0
  | String "e" r | String "E" r =>
      let (neg, ds) := split_sign r in
      let (ds', rest) := span_digits ds in
      if nonempty ds' && negb (nonempty rest)
      then Some (apply_sign neg (digits_value ds'))
      else None
  | _ => None
  end.

(** [StrUnsignedDecimalLiteral]: [Infinity], or digits with an optional
    fraction and an optional exponent.  The value is computed exactly. *)
Definition unsigned_decimal (neg : bool) (s : string) : converted :=
  if String.eqb s "Infinity" then IsOther
  else
    let (d1, r1) := span_digits s in
    let '(d2, r2) :=
      match r1 with
      | String "." r => span_digits r
      | _ => (EmptyString, r1)
      end in
    if nonempty d1 || nonempty d2
    then
      match exponent_part r2 with
      | None => IsNaN
      | Some e =>
          let m := digits_value (d1 +:+ d2) in
          let scale := e - Z.of_nat (String.length d2) in
          if 0 <=? scale then IsInt (apply_sign neg (m * 10 ^ scale))
          else if m mod 10 ^ (- scale) =? 0
               then IsInt (apply_sign neg (m / 10 ^ (- scale)))
               else IsOther
      end
    else IsNaN.

(** [StringToNumber]: white space is trimmed on both sides; the empty
    string is 0; [0x], [0o] and [0b] literals take no sign; anything that is
    not a numeric literal is [NaN]. *)
Definition StringToNumber (s : string) : converted :=
  let t := trim s in
  match t with
  | EmptyString => IsInt 0
  | String "0" (String "x" r) | String "0" (String "X" r) =>
      match hex_literal r with
      | Some h => if nonempty r then IsInt (Z.of_hex_uint h) else IsNaN
      | None => IsNaN
      end
  | String "0" (String "o" r) | String "0" (String "O" r) =>
      match radix_value 8 0 r with
      | Some z => if nonempty r then IsInt z else IsNaN
      | None => IsNaN
      end
  | String "0" (String "b" r) | String "0" (String "B" r) =>
      match radix_value 2 0 r with
      | Some z => if nonempty r then IsInt z else IsNaN
      | None => IsNaN
      end
  | _ =>
      let (neg, r) := split_sign t in
      unsigned_decimal neg r
  end.

Definition ToNumber (v : value) : converted :=
  match v with
  | VUndefined => IsNaN
  | VNull => IsInt 0
  | VBool b => IsInt (if b then 1 else 0)
  | VNumber NaN => IsNaN
  | VNumber (Int z) => IsInt z
  | VString s => StringToNumber s
  end.

(** The global [isNaN(v)]: whether [ToNumber] gives [NaN], which for a
    string is a matter of its spelling alone. *)
Definition isNaN (v : value) : bool :=
  match ToNumber v with
  | IsNaN => true
  | _ => false
  end.

(** Equality of two converted numbers of which one at least comes from a
    boolean or a number, hence is [NaN] or an integer. *)
Definition converted_eqb (a b : converted) : bool :=
  match a, b with
  | IsInt x, IsInt y => x =? y
  | _, _ => false
  end.

(** [x === y]. *)
Definition strict_eq (x y : value) : bool :=
  match x, y with
  | VUndefined, VUndefined | VNull, VNull => true
  | VBool a, VBool b => Bool.eqb a b
  | VNumber a, VNumber b => number_eqb a b
  | VString a, VString b => String.eqb a b
  | _, _ => false
  end.

(** [x == y]: operands of one type compare strictly, [null] and [undefined]
    equal each other, a boolean and a string are taken to numbers when the
    other side is a number or a boolean.  Two values that are strings,
    [null] or [undefined] are compared without any conversion ([plain]);
    a comparison that converts is exact on the integers of the safe
    range. *)
Definition loose_eq (x y : value) : bool :=
  match x, y with
  | (VUndefined | VNull), (VUndefined | VNull) => true
  | (VUndefined | VNull), _ | _, (VUndefined | VNull) => false
  | VString a, VString b => String.eqb a b
  | _, _ => converted_eqb (ToNumber x) (ToNumber y)
  end.

(** [x != y]. *)
Definition loose_neq (x y : value) : bool := negb (loose_eq x y).

(** The values [==] compares as they are when both sides are of this
    kind: strings, [null] and [undefined]. *)
Definition plain (v : value) : bool :=
  match v with
  | VString _ | VNull | VUndefined => true
  | _ => false
  end.

End JS.

(* ===================================================================== *)
(** ** The pool: statements, bound values, callback arguments *)
(* ===================================================================== *)

Module Mysql.
Import JS.

(** The second argument of [pool.query(sql, values, callback)]: left out,
    an array, or (in the login handler) a bare value. *)
Inductive bindings :=
| Absent
| Array (vs : list value)
| Scalar (v : value).

(** The error object handed to a callback; handlers read [err.message]. *)
Record MysqlError := { code : string; message : string }.

(** The packet that answers an INSERT, UPDATE or DELETE; of its members the
    handlers read [affectedRows] and [insertId]. *)
Record OkPacket := { affectedRows : Z; insertId : Z }.

(** The [result] of a statement: the rows of a SELECT, each a map from column
    name to value, or an [OkPacket]. *)
Inductive result :=
| RowDataPackets (rows : list (gmap string value))
| Ok (p : OkPacket).

(** The arguments [(err, result)] of a callback: [err] set and [result]
    undefined, or [err] null and [result] set. *)
Inductive outcome :=
| Failed (err : MysqlError)
| Succeeded (result : result).

(** [result.length], [result.affectedRows], [result.insertId], [result[0]]. *)
Definition length_of (r : result) : value :=
  match r with
  | RowDataPackets rows => VNumber (Int (Z.of_nat (length rows)))
  | Ok _ => VUndefined
  end.

Definition affectedRows_of (r : result) : value :=
  match r with
  | RowDataPackets _ => VUndefined
  | Ok p => VNumber (Int (affectedRows p))
  end.

Definition insertId_of (r : result) : value :=
  match r with
  | RowDataPackets _ => VUndefined
  | Ok p => VNumber (Int (insertId p))
  end.

Definition first_of (r : result) : option (gmap string value) :=
  match r with
  | RowDataPackets (r0 :: _) => Some r0
  | _ => None
  end.

(** [row.name] for a column name. *)
Definition column (r : gmap string value) (name : string) : value :=
  default VUndefined (r !! name).

End Mysql.

(* ===================================================================== *)
(** ** Requests, responses, handler bodies and their runs *)
(* ===================================================================== *)

Module Express.
Import JS Mysql.

(** What a handler reads of a request: the path parameters (strings) and the
    parsed JSON body. *)
Record Request := { params : gmap string string; body : gmap string value }.

(** [req.params.name] and [req.body.name]. *)
Definition param (req : Request) (name : string) : value :=
  match params req !! name with
  | Some s => VString s
  | None => VUndefined
  end.

Definition field (req : Request) (name : string) : value :=
  default VUndefined (body req !! name).

(** What is passed to [res.json] or [res.send]: a scalar, the driver's
    [result] as it came, or an object literal whose members are scalars or
    the [result]. *)
Inductive member :=
| MValue (v : value)
| MResult (r : result).

Inductive json :=
| JValue (v : value)
| JResult (r : result)
| JObject (members : list (string * member)).

Definition text (s : string) : json := JValue (VString s).
Definition mtext (s : string) : member := MValue (VString s).

(** [{ message: s }] and [{ error: s }]. *)
Definition message_only (s : string) : json := JObject [("message", mtext s)].
Definition error_only (s : string) : json := JObject [("error", mtext s)].

(** What a callback can raise. *)
Inductive exn :=
| ReferenceError (identifier : string)   (* an identifier that is not bound *)
| TypeError                              (* a property read on undefined *)
| SyntaxError                            (* JSON.parse of a non-JSON text *)
| ERR_HTTP_HEADERS_SENT.                 (* a header set on a sent response *)

(** The body of a handler.
    - [pool_query sql values cb] is [pool.query(sql, values, cb)];
    - [Respond status payload rest] is [res.status(status).json(payload)]
      (or [.send]) followed by the statements after it, so a [return] in
      front of it is [Respond status payload Return];
    - [Throw e] raises [e];
    - [Return] leaves the callback.
    [console.log] calls are left out.  The [try]/[catch] around a
    [pool.query] call guards only the call itself, not the callback the pool
    runs later, so it guards nothing that is modelled here. *)
Inductive prog :=
| Return
| pool_query (sql : string) (values : bindings) (callback : outcome -> prog)
| Respond (status : Z) (payload : json) (rest : prog)
| Throw (e : exn).

(** What can be observed of a run, in order. *)
Inductive event :=
| EvQuery (sql : string) (values : bindings)
| EvResponse (status : Z) (payload : json)
| EvUncaught (e : exn).

(** [res.send(undefined)] sets no header and writes no body; every other
    payload sets [Content-Type] on its way out. *)
Definition sets_headers (payload : json) : bool :=
  match payload with
  | JValue VUndefined => false
  | _ => true
  end.

Section Run.
(** The query executor: any function from the store and a statement to
    the callback's arguments and the new store. *)
Context {DB : Type} (exec : DB -> string -> bindings -> outcome * DB).

(** [run db sent p]: [sent] tells whether the response has been written.
    Once it has, a write that sets a header raises and ends the callback,
    and [res.send(undefined)] passes unnoticed. *)
Fixpoint run (db : DB) (sent : bool) (p : prog) : list event * DB :=
  match p with
  | Return => ([], db)
  | Throw e => ([EvUncaught e], db)
  | Respond status payload rest =>
      if sent
      then if sets_headers payload then ([EvUncaught ERR_HTTP_HEADERS_SENT], db)
           else run db sent rest
      else let (t, db') := run db true rest in
           (EvResponse status payload :: t, db')
  | pool_query sql values callback =>
      let (o, db1) := exec db sql values in
      let (t, db2) := run db1 sent (callback o) in
      (EvQuery sql values :: t, db2)
  end.

(** The run of a handler on a fresh response. *)
Definition serve (db : DB) (p : prog) : list event * DB := run db false p.

(** The callback arguments the executor delivered along a run, in order. *)
Fixpoint delivered (db : DB) (sent : bool) (p : prog) : list outcome :=
  match p with
  | Return | Throw _ => []
  | Respond _ payload rest =>
      if sent
      then if sets_headers payload then [] else delivered db sent rest
      else delivered db true rest
  | pool_query sql values callback =>
      let (o, db1) := exec db sql values in
      o :: delivered db1 sent (callback o)
  end.

Definition answers (db : DB) (p : prog) : list outcome := delivered db false p.
End Run.

(** The trace of a handler body as a function of the callback arguments it
    is fed; a statement that is never answered leaves its callback unrun. *)
Fixpoint replay (os : list outcome) (sent : bool) (p : prog) : list event :=
  match p with
  | Return => []
  | Throw e => [EvUncaught e]
  | Respond status payload rest =>
      if sent
      then if sets_headers payload then [EvUncaught ERR_HTTP_HEADERS_SENT]
           else replay os sent rest
      else EvResponse status payload :: replay os true rest
  | pool_query sql values callback =>
      EvQuery sql values ::
        match os with
        | o :: os' => replay os' sent (callback o)
        | [] => []
        end
  end.

(** The response the client receives: the first one written. *)
Fixpoint response_of (t : list event) : option (Z * json) :=
  match t with
  | [] => None
  | EvResponse status payload :: _ => Some (status, payload)
  | _ :: t' => response_of t'
  end.

(** The statements that reached the executor, in order. *)
Fixpoint queries_of (t : list event) : list (string * bindings) :=
  match t with
  | [] => []
  | EvQuery sql values :: t' => (sql, values) :: queries_of t'
  | _ :: t' => queries_of t'
  end.

(** The exception that ended the run, if one did. *)
Fixpoint uncaught_of (t : list event) : option exn :=
  match t with
  | [] => None
  | EvUncaught e :: _ => Some e
  | _ :: t' => uncaught_of t'
  end.

(** How many responses were written. *)
Definition responses (t : list event) : nat :=
  length (List.filter (fun e => match e with EvResponse _ _ => true | _ => false end) t).

(** The trace of a handler on a fresh response, fed the given answers. *)
Definition fed (os : list outcome) (p : prog) : list event := replay os false p.

Definition num (z : Z) : value := VNumber (Int z).

(** A line break inside a template literal. *)
Definition EOL : piece := Lit (String (ascii_of_nat 10) EmptyString).

Inductive method := GET | POST | PUT | DELETE.

End Express.

Import JS Mysql Express.

(* ===================================================================== *)
(** ** Church routes *)
(* ===================================================================== *)

Module Church.

(** [app.get('/api/Church', ...)] *)
Definition get_all (req : Request) : prog :=
  pool_query "SELECT * FROM Church" Absent (fun o =>
    match o with
    | Failed err => Respond 500 (error_only (message err)) Return
    | Succeeded result => Respond 200 (JResult result) Return
    end).

(** [app.get('/api/Church/:churchId', ...)] *)
Definition get_by_id (req : Request) : prog :=
  let churchId := VNumber (parseInt (param req "churchId")) in
  pool_query "SELECT * FROM Church WHERE churchId = ?" (Array [churchId]) (fun o =>
    match o with
    | Failed err => Respond 404 (message_only "Church not found") Return
    | Succeeded result =>
        if strict_eq (length_of result) (num 0)
        then Respond 404 (message_only "Church not found") Return
        else Respond 200 (JResult result) Return
    end).

(** [app.post('/api/Church', ...)] *)
Definition create (req : Request) : prog :=
  let churchName := field req "churchName" in
  let location := field req "location" in
  let branch := field req "branch" in
  let province := field req "province" in
  let city := field req "city" in
  let region := field req "region" in
  let pastorId := field req "pastorId" in
  let sql :=
    "INSERT INTO Church (churchName, location, branch, province, city, region, pastorId) VALUES (?, ?, ?, ?, ?, ?, ?)" in
  pool_query sql (Array [churchName; location; branch; province; city; region; pastorId])
    (fun o =>
      match o with
      | Failed err => Respond 400 (error_only (message err)) Return
      | Succeeded result =>
          Respond 201 (JObject [("message", mtext "Church created successfully");
                                ("result", MResult result)]) Return
      end).

(** [app.put('/api/Church', ...)] *)
Definition update (req : Request) : prog :=
  let churchId := field req "churchId" in
  let churchName := field req "churchName" in
  let location := field req "location" in
  let branch := field req "branch" in
  let province := field req "province" in
  let city := field req "city" in
  let region := field req "region" in
  let pastorId := field req "pastorId" in
  let sql :=
    template [
      EOL; Lit "    UPDATE Church SET "; EOL;
      Lit "      churchName = ?, location = ?, branch = ?, province = ?, city = ?, region = ?, pastorId = ?";
      EOL; Lit "    WHERE churchId = ?"; EOL; Lit "  "] in
  pool_query sql
    (Array [churchName; location; branch; province; city; region; pastorId; churchId])
    (fun o =>
      match o with
      | Failed err => Respond 500 (error_only (message err)) Return
      | Succeeded result =>
          Respond 200 (JObject [("message", mtext "Church updated successfully");
                                ("result", MResult result)]) Return
      end).

(** [app.delete('/api/Church/:id', ...)] *)
Definition delete_by_id (req : Request) : prog :=
  let churchId := VNumber (parseInt (param req "id")) in
  pool_query "DELETE FROM Church WHERE churchId = ?" (Array [churchId]) (fun o =>
    match o with
    | Failed err => Respond 404 (message_only "Church not found") Return
    | Succeeded result =>
        if strict_eq (affectedRows_of result) (num 0)
        then Respond 404 (message_only "Church not found") Return
        else Respond 200 (message_only "Church deleted successfully") Return
    end).

End Church.

(* ===================================================================== *)
(** ** Person routes *)
(* ===================================================================== *)

Module Person.

(** [app.get('/api/Person', ...)]: on an error the callback returns [err]
    and writes nothing. *)
Definition get_all (req : Request) : prog :=
  pool_query (template [Lit "select * from Person"]) Absent (fun o =>
    match o with
    | Failed err => Return
    | Succeeded result => Respond 200 (JResult result) Return
    end).

(** [app.get('/api/Person/:id', ...)]: the 404 is not followed by a
    [return], so the 200 is attempted after it. *)
Definition get_by_id (req : Request) : prog :=
  let personId := VNumber (parseInt (param req "id")) in
  pool_query (template [Lit "select * from Person where personId="; Sub personId]) Absent
    (fun o =>
      match o with
      | Failed err =>
          Respond 404 (message_only "Person not found")
            (Respond 200 (JValue VUndefined) Return)
      | Succeeded result => Respond 200 (JResult result) Return
      end).

(** [app.post('/api/Person', ...)] *)
Definition create (request : Request) : prog :=
  let personId := field request "personId" in
  let address := field request "address" in
  let comments := field request "comments" in
  let contactNumber := field request "contactNumber" in
  let gender := field request "gender" in
  let maritalStatus := field request "maritalStatus" in
  let name := field request "name" in
  let surname := field request "surname" in
  let churchId := field request "churchId" in
  let cellLeader := field request "cellLeader" in
  let cellLocation := field request "cellLocation" in
  let church := field request "church" in
  let ministry := field request "ministry" in
  let region := field request "region" in
  let regContribution := field request "regContribution" in
  let seedContribution := field request "seedContribution" in
  let amount := field request "amount" in
  let sql :=
    template [
      Lit "INSERT INTO Person"; EOL;
      Lit "    (personId, address, comments, contactNumber, gender, maritalStatus, name, surname, churchId, cellLeader, cellLocation, ministry, church, region, regContribution, seedContribution, amount) VALUES ";
      EOL; Lit "    ('"; Sub personId; Lit "', '"; Sub address; Lit "', '";
      Sub comments; Lit "', '"; Sub contactNumber; Lit "', '"; Sub gender;
      Lit "', '"; Sub maritalStatus; Lit "' , '"; Sub name; Lit "', '";
      Sub surname; Lit "' , '"; Sub churchId; Lit "', '"; Sub cellLeader;
      Lit "', '"; Sub cellLocation; Lit "' , '"; Sub ministry; Lit "', '";
      Sub church; Lit "', '"; Sub region; Lit "', '"; Sub regContribution;
      Lit "', '"; Sub seedContribution; Lit "', '"; Sub amount; Lit "')"] in
  pool_query sql Absent (fun o =>
    match o with
    | Failed err => Return
    | Succeeded result => Respond 200 (JResult result) Return
    end).

(** [app.put('/api/Person/{id}', async (request, res) => ...)]: the callback
    names [response], which this handler does not bind. *)
Definition update (request : Request) : prog :=
  let personId := field request "personId" in
  let address := field request "address" in
  let comments := field request "comments" in
  let contactNumber := field request "contactNumber" in
  let gender := field request "gender" in
  let maritalStatus := field request "maritalStatus" in
  let name := field request "name" in
  let surname := field request "surname" in
  let churchId := field request "churchId" in
  let cellLeader := field request "cellLeader" in
  let cellLocation := field request "cellLocation" in
  let ministry := field request "ministry" in
  let church := field request "church" in
  let region := field request "region" in
  let regContribution := field request "regContribution" in
  let seedContribution := field request "seedContribution" in
  let amount := field request "amount" in
  let sql :=
    template [
      Lit "UPDATE Person"; EOL; Lit "        SET  address='"; Sub address;
      Lit "', comments='"; Sub comments; Lit "', contactNumber='";
      Sub contactNumber; Lit "', gender='"; Sub gender;
      Lit "', maritalStatus='"; Sub maritalStatus; Lit "', name='"; Sub name;
      Lit "', surname='"; Sub surname; Lit "', churchId='"; Sub churchId;
      Lit "', cellLeader='"; Sub cellLeader; Lit "', cellLocation='";
      Sub cellLocation; Lit "', ministry='"; Sub ministry; Lit "', church='";
      Sub church; Lit "', region='"; Sub region; Lit "', regContribution='";
      Sub regContribution; Lit "', seedContribution='"; Sub seedContribution;
      Lit "', amount='"; Sub amount; Lit "'"; EOL;
      Lit "        WHERE personId='"; Sub personId; Lit "' "] in
  pool_query sql Absent (fun o =>
    match o with
    | Failed err => Return
    | Succeeded result => Throw (ReferenceError "response")
    end).

(** [app.delete('/api/Person/{id}', ...)] *)
Definition delete_by_id (req : Request) : prog :=
  let personId := param req "id" in
  pool_query (template [Lit "delete from Person where personId="; Sub personId]) Absent
    (fun o =>
      match o with
      | Failed err =>
          Respond 404 (message_only "Person not found")
            (Respond 200 (JValue VUndefined) Return)
      | Succeeded result => Respond 200 (JResult result) Return
      end).

End Person.

(* ===================================================================== *)
(** ** Stats routes *)
(* ===================================================================== *)

Module Stats.

(** [app.get('/api/Stats', ...)] *)
Definition get_all (req : Request) : prog :=
  pool_query (template [Lit "select * from Stats"]) Absent (fun o =>
    match o with
    | Failed err => Return
    | Succeeded result => Respond 200 (JResult result) Return
    end).

(** [app.get('/api/Stats/:id', ...)] *)
Definition get_by_id (req : Request) : prog :=
  let statsId := VNumber (parseInt (param req "id")) in
  pool_query (template [Lit "select * from Stats where statsId="; Sub statsId]) Absent
    (fun o =>
      match o with
      | Failed err =>
          Respond 404 (message_only "Stats not found")
            (Respond 200 (JValue VUndefined) Return)
      | Succeeded result => Respond 200 (JResult result) Return
      end).

(** [app.post('/api/Stats', ...)] *)
Definition create (request : Request) : prog :=
  let adult := field request "adult" in
  let car := field request "car" in
  let fk := field request "fk" in
  let saved := field request "saved" in
  let offering := field request "offering" in
  let visitors := field request "visitors" in
  let date := field request "date" in
  let churchId := field request "churchId" in
  let aow := field request "aow" in
  let ck := field request "ck" in
  let sql :=
    template [
      Lit "INSERT INTO Stats"; EOL;
      Lit "    (adult, car, fk, saved, offering, visitors, date, churchId, aow, ck) VALUES ";
      EOL; Lit "    ('"; Sub adult; Lit "', '"; Sub car; Lit "', '"; Sub fk;
      Lit "', '"; Sub saved; Lit "' , '"; Sub offering; Lit "', '";
      Sub visitors; Lit "' ,'"; Sub date; Lit "' , '"; Sub churchId;
      Lit "', '"; Sub aow; Lit "', '"; Sub ck; Lit "')"] in
  pool_query sql Absent (fun o =>
    match o with
    | Failed err => Return
    | Succeeded result => Respond 200 (JResult result) Return
    end).

(** [app.put('/api/Stats', async (request, response) => ...)] *)
Definition update (request : Request) : prog :=
  let statsId := field request "statsId" in
  let adult := field request "adult" in
  let car := field request "car" in
  let fk := field request "fk" in
  let saved := field request "saved" in
  let offering := field request "offering" in
  let visitors := field request "visitors" in
  let date := field request "date" in
  let churchId := field request "churchId" in
  let aow := field request "aow" in
  let ck := field request "ck" in
  let sql :=
    template [
      Lit "UPDATE Stats"; EOL; Lit "    SET  adult='"; Sub adult;
      Lit "', car='"; Sub car; Lit "', fk='"; Sub fk; Lit "', saved='";
      Sub saved; Lit "', offering='"; Sub offering; Lit "', visitors='";
      Sub visitors; Lit "', date='"; Sub date; Lit "', churchId='";
      Sub churchId; Lit "', aow='"; Sub aow; Lit "', ck='"; Sub ck; Lit "'";
      EOL; Lit "    WHERE statsId='"; Sub statsId; Lit "' "] in
  pool_query sql Absent (fun o =>
    match o with
    | Failed err => Return
    | Succeeded result => Respond 200 (JResult result) Return
    end).

(** [app.delete('/api/Stats/:{statsId}', ...)] *)
Definition delete_by_id (req : Request) : prog :=
  let statsId := param req "statsId" in
  pool_query (template [Lit "delete * from Stats where statsId="; Sub statsId]) Absent
    (fun o =>
      match o with
      | Failed err =>
          Respond 404 (message_only "Stats not found")
            (Respond 200 (JValue VUndefined) Return)
      | Succeeded result => Respond 200 (JResult result) Return
      end).

End Stats.

(* ===================================================================== *)
(** ** User routes and the login *)
(* ===================================================================== *)

Module User.

(** [app.get('/api/User', ...)] *)
Definition get_all (req : Request) : prog :=
  pool_query (template [Lit "select * from User"]) Absent (fun o =>
    match o with
    | Failed err => Return
    | Succeeded result => Respond 200 (JResult result) Return
    end).

(** [app.get('/api/User/:id', ...)] *)
Definition get_by_id (req : Request) : prog :=
  let userId := VNumber (parseInt (param req "id")) in
  pool_query (template [Lit "select * from User where userId="; Sub userId]) Absent
    (fun o =>
      match o with
      | Failed err =>
          Respond 404 (message_only "User not found")
            (Respond 200 (JValue VUndefined) Return)
      | Succeeded result => Respond 200 (JResult result) Return
      end).

(** [app.post('/api/User', ...)] *)
Definition create (request : Request) : prog :=
  let role := field request "role" in
  let username := field request "username" in
  let password := field request "password" in
  let personId := field request "personId" in
  let sql :=
    template [
      Lit "INSERT INTO User"; EOL;
      Lit "    (role, username, password, personId) VALUES "; EOL;
      Lit "    ('"; Sub role; Lit "', '"; Sub username; Lit "', '";
      Sub password; Lit "', '"; Sub personId; Lit "')"] in
  pool_query sql Absent (fun o =>
    match o with
    | Failed err => Return
    | Succeeded result => Respond 200 (JResult result) Return
    end).

(** What [JSON.parse(JSON.stringify(v))] makes of a column value. *)
Definition JSON_copy (v : value) : value :=
  match v with
  | VNumber NaN => VNull
  | _ => v
  end.

(** [app.post('/Login/', ...)].
    The callback starts with [res = JSON.parse(JSON.stringify(result))].  On
    an error [result] is undefined, [JSON.stringify] gives undefined and
    [JSON.parse] raises.  Otherwise [res] is a fresh copy of [result], so
    [res == []] (two distinct arrays) and [res == undefined] are false and
    [err] is null: the branch that answers 500 with
    ["Unaurthorized, Invalid Username"] is not taken, and [res[0].password]
    is read.  The 401 is not followed by a [return]. *)
Definition login (request : Request) : prog :=
  let username := field request "username" in
  let password := field request "password" in
  pool_query (template [Lit "select password from User where username=?"])
    (Scalar username)
    (fun o =>
      match o with
      | Failed err => Throw SyntaxError
      | Succeeded result =>
          match first_of result with
          | None => Throw TypeError
          | Some row0 =>
              let resultPassword := JSON_copy (column row0 "password") in
              if loose_neq resultPassword password
              then Respond 401 (text "Unaurthorized, invalid password")
                     (Respond 200 (text "Auth Successfully, Access Granted!!") Return)
              else Respond 200 (text "Auth Successfully, Access Granted!!") Return
          end
      end).

(** [app.put('/api/User/{id}', async (request, res) => ...)]: the callback
    names [response], which this handler does not bind. *)
Definition update (request : Request) : prog :=
  let userId := field request "userId" in
  let role := field request "role" in
  let username := field request "username" in
  let password := field request "password" in
  let personId := field request "personId" in
  let sql :=
    template [
      Lit "UPDATE User"; EOL; Lit "        SET  role='"; Sub role;
      Lit "', username='"; Sub username; Lit "', password='"; Sub password;
      Lit "', personId='"; Sub personId; Lit "'"; EOL;
      Lit "        WHERE userId='"; Sub userId; Lit "' "] in
  pool_query sql Absent (fun o =>
    match o with
    | Failed err => Return
    | Succeeded result => Throw (ReferenceError "response")
    end).

(** [app.delete('/api/User/{id}', ...)] *)
Definition delete_by_id (req : Request) : prog :=
  let userId := param req "id" in
  pool_query (template [Lit "delete from User where userId="; Sub userId]) Absent
    (fun o =>
      match o with
      | Failed err =>
          Respond 404 (message_only "User not found")
            (Respond 200 (JValue VUndefined) Return)
      | Succeeded result => Respond 200 (JResult result) Return
      end).

End User.

(* ===================================================================== *)
(** ** Calendar routes *)
(* ===================================================================== *)

Module Calendar.

(** [app.get('/api/Calendar', ...)] *)
Definition get_all (req : Request) : prog :=
  pool_query (template [Lit "select * from Calendar"]) Absent (fun o =>
    match o with
    | Failed err => Return
    | Succeeded result => Respond 200 (JResult result) Return
    end).

(** [app.get('/api/Calendar/:id', ...)] *)
Definition get_by_id (req : Request) : prog :=
  let calendarId := VNumber (parseInt (param req "id")) in
  pool_query (template [Lit "select * from Calendar where Id="; Sub calendarId]) Absent
    (fun o =>
      match o with
      | Failed err =>
          Respond 404 (message_only "Calendar event not found")
            (Respond 200 (JValue VUndefined) Return)
      | Succeeded result => Respond 200 (JResult result) Return
      end).

(** [app.post('/api/Calendar', ...)] *)
Definition create (request : Request) : prog :=
  let name := field request "name" in
  let time := field request "time" in
  let month := field request "month" in
  let year := field request "year" in
  let department := field request "department" in
  let region := field request "region" in
  let dayFrom := field request "dayFrom" in
  let dayTo := field request "dayTo" in
  let sql :=
    template [
      Lit "INSERT INTO Calendar"; EOL;
      Lit "    (name, time, month, year, department, region, dayFrom, dayTo) VALUES ";
      EOL; Lit "    ('"; Sub name; Lit "', '"; Sub time; Lit "', '";
      Sub month; Lit "', '"; Sub year; Lit "', '"; Sub department;
      Lit "', '"; Sub region; Lit "' , '"; Sub dayFrom; Lit "', '";
      Sub dayTo; Lit "')"] in
  pool_query sql Absent (fun o =>
    match o with
    | Failed err => Return
    | Succeeded result => Respond 200 (JResult result) Return
    end).

(** [app.put('/api/Calendar/{id}', async (request, response) => ...)] *)
Definition update (request : Request) : prog :=
  let id := field request "id" in
  let name := field request "name" in
  let time := field request "time" in
  let month := field request "month" in
  let year := field request "year" in
  let department := field request "department" in
  let region := field request "region" in
  let dayFrom := field request "dayFrom" in
  let dayTo := field request "dayTo" in
  let sql :=
    template [
      Lit "UPDATE Calendar"; EOL; Lit "    SET name='"; Sub name;
      Lit "', time='"; Sub time; Lit "', month='"; Sub month;
      Lit "', year='"; Sub year; Lit "', department='"; Sub department;
      Lit "', region='"; Sub region; Lit "', dayFrom='"; Sub dayFrom;
      Lit "', dayTo='"; Sub dayTo; Lit "') VALUES "; EOL;
      Lit "    WHERE id='"; Sub id; Lit "' "] in
  pool_query sql Absent (fun o =>
    match o with
    | Failed err => Return
    | Succeeded result => Respond 200 (JResult result) Return
    end).

(** [app.delete('/api/Calendar/{id}', ...)] *)
Definition delete_by_id (req : Request) : prog :=
  let id := param req "id" in
  pool_query (template [Lit "delete from Calendar where id="; Sub id]) Absent
    (fun o =>
      match o with
      | Failed err =>
          Respond 404 (message_only "Calendar not found")
            (Respond 200 (JValue VUndefined) Return)
      | Succeeded result => Respond 200 (JResult result) Return
      end).

End Calendar.

(* ===================================================================== *)
(** ** Assets routes *)
(* ===================================================================== *)

Module Assets.

(** [app.get('/api/Assets', ...)] *)
Definition get_all (req : Request) : prog :=
  pool_query (template [Lit "select * from Assets"]) Absent (fun o =>
    match o with
    | Failed err => Return
    | Succeeded result => Respond 200 (JResult result) Return
    end).

(** [app.get('/api/Assets/:id', ...)]: the 404 is not followed by a
    [return]. *)
Definition get_by_id (req : Request) : prog :=
  let assetId := VNumber (parseInt (param req "id")) in
  pool_query (template [Lit "select * from Assets where asset_id="; Sub assetId]) Absent
    (fun o =>
      match o with
      | Failed err =>
          Respond 404 (message_only "Asset not found")
            (Respond 200 (JValue VUndefined) Return)
      | Succeeded result =>
          if strict_eq (length_of result) (num 0)
          then Respond 404 (message_only "Asset not found")
                 (Respond 200 (JResult result) Return)
          else Respond 200 (JResult result) Return
      end).

Definition checkLocationSQL : string :=
  template [Lit "SELECT name FROM Locations WHERE location_id = ?"].

Definition insertSQL : string :=
  template [
    EOL; Lit "            INSERT INTO Assets ("; EOL;
    Lit "                location_id, name, description, purchase_date, purchase_price,";
    EOL;
    Lit "                serial_number, category, `condition`, last_maintenance_date";
    EOL; Lit "            )"; EOL;
    Lit "            VALUES (?, ?, ?, ?, ?, ?, ?, ?, ?)"; EOL;
    Lit "        "].

(** [app.post('/api/Assets', ...)] *)
Definition create (req : Request) : prog :=
  let location_id := field req "location_id" in
  let name := field req "name" in
  let description := field req "description" in
  let purchase_date := field req "purchase_date" in
  let purchase_price := field req "purchase_price" in
  let serial_number := field req "serial_number" in
  let category := field req "category" in
  let condition := field req "condition" in
  let last_maintenance_date := field req "last_maintenance_date" in
  if negb (ToBoolean location_id) || isNaN location_id
  then Respond 400 (message_only "Invalid or missing location_id") Return
  else
    pool_query checkLocationSQL (Array [location_id]) (fun o =>
      match o with
      | Failed err => Respond 500 (message_only "Database error") Return
      | Succeeded locationResult =>
          if strict_eq (length_of locationResult) (num 0)
          then Respond 404 (message_only "Invalid location ID") Return
          else
            match first_of locationResult with
            | None => Throw TypeError
            | Some row0 =>
                let location_name := column row0 "name" in
                let values :=
                  [ location_id;
                    name;
                    description;
                    or_else purchase_date VNull;
                    or_else purchase_price VNull;
                    serial_number;
                    category;
                    condition;
                    or_else last_maintenance_date VNull ] in
                pool_query insertSQL (Array values) (fun o' =>
                  match o' with
                  | Failed err =>
                      Respond 500 (JObject [("message", mtext "Error adding asset");
                                            ("error", mtext (message err))]) Return
                  | Succeeded result =>
                      Respond 200
                        (JObject [
                           ("message",
                            mtext (template [
                              Lit "Asset '"; Sub name;
                              Lit "' added successfully at location '";
                              Sub location_name; Lit "'"]));
                           ("assetId", MValue (insertId_of result))]) Return
                  end)
            end
      end).

(** [app.put('/api/Assets/:id', ...)] *)
Definition update (req : Request) : prog :=
  let assetId := param req "id" in
  let location_id := field req "location_id" in
  let name := field req "name" in
  let description := field req "description" in
  let purchase_date := field req "purchase_date" in
  let purchase_price := field req "purchase_price" in
  let serial_number := field req "serial_number" in
  let category := field req "category" in
  let condition := field req "condition" in
  let last_maintenance_date := field req "last_maintenance_date" in
  let sql :=
    template [
      Lit "UPDATE Assets SET "; EOL; Lit "        location_id='";
      Sub location_id; Lit "', name='"; Sub name; Lit "', description='";
      Sub description; Lit "', purchase_date='"; Sub purchase_date;
      Lit "', "; EOL; Lit "        purchase_price="; Sub purchase_price;
      Lit ", serial_number='"; Sub serial_number; Lit "', category='";
      Sub category; Lit "', "; EOL; Lit "        condition='"; Sub condition;
      Lit "', last_maintenance_date='"; Sub last_maintenance_date; Lit "' ";
      EOL; Lit "        WHERE asset_id="; Sub assetId] in
  pool_query sql Absent (fun o =>
    match o with
    | Failed err => Respond 404 (message_only "Asset not found") Return
    | Succeeded result =>
        if strict_eq (affectedRows_of result) (num 0)
        then Respond 404 (message_only "Asset not found") Return
        else Respond 200 (JResult result) Return
    end).

(** [app.delete('/api/Assets/:id', ...)] *)
Definition delete_by_id (req : Request) : prog :=
  let assetId := param req "id" in
  pool_query (template [Lit "DELETE FROM Assets WHERE asset_id="; Sub assetId]) Absent
    (fun o =>
      match o with
      | Failed err => Respond 404 (message_only "Asset not found") Return
      | Succeeded result =>
          if strict_eq (affectedRows_of result) (num 0)
          then Respond 404 (message_only "Asset not found") Return
          else Respond 200 (JResult result) Return
      end).

End Assets.

(* ===================================================================== *)
(** ** Locations routes *)
(* ===================================================================== *)

Module Locations.

(** [app.get('/api/Locations', ...)] *)
Definition get_all (req : Request) : prog :=
  pool_query "SELECT * FROM Locations" Absent (fun o =>
    match o with
    | Failed err => Respond 500 (message_only (message err)) Return
    | Succeeded result => Respond 200 (JResult result) Return
    end).

(** [app.post('/api/Locations', ...)] *)
Definition create (req : Request) : prog :=
  let name := field req "name" in
  let address := field req "address" in
  let contact_person := field req "contact_person" in
  let contact_phone := field req "contact_phone" in
  let sql :=
    template [
      Lit "INSERT INTO Locations (name, address, contact_person, contact_phone) VALUES (?, ?, ?, ?)"] in
  pool_query sql (Array [name; address; contact_person; contact_phone]) (fun o =>
    match o with
    | Failed err => Respond 400 (message_only (message err)) Return
    | Succeeded result =>
        Respond 201 (JObject [("message", mtext "Location added successfully");
                              ("result", MResult result)]) Return
    end).

(** [app.put('/api/Locations/:id', ...)] *)
Definition update (req : Request) : prog :=
  let locationId := VNumber (parseInt (param req "id")) in
  let name := field req "name" in
  let address := field req "address" in
  let contact_person := field req "contact_person" in
  let contact_phone := field req "contact_phone" in
  let sql :=
    template [
      EOL;
      Lit "        UPDATE Locations SET name = ?, address = ?, contact_person = ?, contact_phone = ? ";
      EOL; Lit "        WHERE location_id = ?"; EOL; Lit "    "] in
  pool_query sql (Array [name; address; contact_person; contact_phone; locationId])
    (fun o =>
      match o with
      | Failed err =>
          Respond 404 (message_only "Location not found or update failed") Return
      | Succeeded result =>
          if strict_eq (affectedRows_of result) (num 0)
          then Respond 404 (message_only "Location not found or update failed") Return
          else Respond 200 (JObject [("message", mtext "Location updated successfully");
                                     ("result", MResult result)]) Return
      end).

(** [app.delete('/api/Locations/:id', ...)] *)
Definition delete_by_id (req : Request) : prog :=
  let locationId := VNumber (parseInt (param req "id")) in
  pool_query "DELETE FROM Locations WHERE location_id = ?" (Array [locationId]) (fun o =>
    match o with
    | Failed err => Respond 404 (message_only "Location not found") Return
    | Succeeded result =>
        if strict_eq (affectedRows_of result) (num 0)
        then Respond 404 (message_only "Location not found") Return
        else Respond 200 (message_only "Location deleted successfully") Return
    end).

End Locations.

(* ===================================================================== *)
(** ** The route table *)
(* ===================================================================== *)

(** The routes in the order [index.js] registers them, with the path as it
    is written there. *)
Definition routes : list (method * string * (Request -> prog)) :=
  [ (GET, "/api/Church", Church.get_all);
    (GET, "/api/Church/:churchId", Church.get_by_id);
    (POST, "/api/Church", Church.create);
    (PUT, "/api/Church", Church.update);
    (DELETE, "/api/Church/:id", Church.delete_by_id);
    (GET, "/api/Person", Person.get_all);
    (GET, "/api/Person/:id", Person.get_by_id);
    (POST, "/api/Person", Person.create);
    (PUT, "/api/Person/{id}", Person.update);
    (DELETE, "/api/Person/{id}", Person.delete_by_id);
    (GET, "/api/Stats", Stats.get_all);
    (GET, "/api/Stats/:id", Stats.get_by_id);
    (POST, "/api/Stats", Stats.create);
    (PUT, "/api/Stats", Stats.update);
    (DELETE, "/api/Stats/:{statsId}", Stats.delete_by_id);
    (GET, "/api/User", User.get_all);
    (GET, "/api/User/:id", User.get_by_id);
    (POST, "/api/User", User.create);
    (POST, "/Login/", User.login);
    (PUT, "/api/User/{id}", User.update);
    (DELETE, "/api/User/{id}", User.delete_by_id);
    (GET, "/api/Calendar", Calendar.get_all);
    (GET, "/api/Calendar/:id", Calendar.get_by_id);
    (POST, "/api/Calendar", Calendar.create);
    (PUT, "/api/Calendar/{id}", Calendar.update);
    (DELETE, "/api/Calendar/{id}", Calendar.delete_by_id);
    (GET, "/api/Assets", Assets.get_all);
    (GET, "/api/Assets/:id", Assets.get_by_id);
    (POST, "/api/Assets", Assets.create);
    (PUT, "/api/Assets/:id", Assets.update);
    (DELETE, "/api/Assets/:id", Assets.delete_by_id);
    (GET, "/api/Locations", Locations.get_all);
    (POST, "/api/Locations", Locations.create);
    (PUT, "/api/Locations/:id", Locations.update);
    (DELETE, "/api/Locations/:id", Locations.delete_by_id) ].

(* ===================================================================== *)
(** ** A reference query executor for bound statements *)
(* ===================================================================== *)

(** Modelled from the spec: the Query Executor, the database behind
    [pool.query], is an external collaborator of which [index.js] holds only
    the calls.  Its contract: it accepts a statement with positional
    placeholders and the bound values, and returns rows for a read, or the
    affected-row count and the generated identifier for an INSERT, or fails
    with a database error; a row is a mapping from column names to scalar
    values and is identified by the key column of its table.

    The store below meets that contract for the two statement shapes the
    handlers send with bound values:

      INSERT INTO t (c1, ..., cn) VALUES (?, ..., ?)
      SELECT * FROM t WHERE pk = ?      SELECT c FROM t WHERE pk = ?

    It reads the table and the column list off the statement text, keeps a
    row per generated key and answers as the driver does: an [OkPacket] with
    [insertId] for an INSERT, the matching rows for a SELECT, an error for
    anything it cannot read.  Statements that spell values inside the text
    are outside what it reads. *)
Module MemDb.

Definition is_name_char (a : ascii) : bool :=
  let n := nat_of_ascii a in
  (((48 <=? n) && (n <=? 57)) || ((65 <=? n) && (n <=? 90))
   || ((97 <=? n) && (n <=? 122)) || (n =? 95))%nat.

Definition is_punctuation (a : ascii) : bool :=
  existsb (Ascii.eqb a) ["("; ")"; ","; "?"; "="; "*"]%char.

(** A back quote only delimits a name. *)
Definition is_separator (a : ascii) : bool :=
  is_white_space a || Ascii.eqb a "`"%char.

Definition flush (cur : string) (ts : list string) : list string :=
  if String.eqb cur "" then ts else cur :: ts.

Fixpoint tokenize (s cur : string) : option (list string) :=
  match s with
  | EmptyString => Some (flush cur [])
  | String a s' =>
      if is_name_char a then tokenize s' (cur +:+ String a EmptyString)
      else if is_separator a then flush cur <$> tokenize s' ""
      else if is_punctuation a
           then (fun ts => flush cur (String a EmptyString :: ts)) <$> tokenize s' ""
           else None
  end.

Definition upper_char (a : ascii) : ascii :=
  let n := nat_of_ascii a in
  if ((97 <=? n) && (n <=? 122))%nat then ascii_of_nat (n - 32) else a.

Fixpoint upper (s : string) : string :=
  match s with
  | EmptyString => EmptyString
  | String a s' => String (upper_char a) (upper s')
  end.

Definition keyword (kw tok : string) : bool := String.eqb (upper tok) kw.

Definition is_name (tok : string) : bool :=
  match tok with
  | String a _ => is_name_char a
  | EmptyString => false
  end.

Inductive statement :=
| Insert (table : string) (columns : list string) (placeholders : nat)
| Select (projection : option string) (table : string) (key_column : string).

(** [x1 , x2 , ... , xn )] and what follows the closing parenthesis. *)
Fixpoint comma_list (ts : list string) : option (list string * list string) :=
  match ts with
  | x :: sep :: rest =>
      if String.eqb sep ")" then Some ([x], rest)
      else if String.eqb sep ","
           then '(xs, rest') ← comma_list rest; Some (x :: xs, rest')
           else None
  | _ => None
  end.

Definition parse_insert (ts : list string) : option statement :=
  match ts with
  | k1 :: k2 :: table :: open :: rest =>
      if keyword "INSERT" k1 && keyword "INTO" k2 && is_name table && String.eqb open "("
      then
        '(columns, rest1) ← comma_list rest;
        match rest1 with
        | k3 :: open' :: rest2 =>
            if keyword "VALUES" k3 && String.eqb open' "("
            then
              '(marks, rest3) ← comma_list rest2;
              if forallb is_name columns && forallb (String.eqb "?") marks
                 && match rest3 with [] => true | _ => false end
              then Some (Insert table columns (length marks))
              else None
            else None
        | _ => None
        end
      else None
  | _ => None
  end.

Definition parse_select (ts : list string) : option statement :=
  match ts with
  | [k1; proj; k2; table; k3; col; eq; mark] =>
      if keyword "SELECT" k1 && keyword "FROM" k2 && keyword "WHERE" k3
         && is_name table && is_name col && String.eqb eq "=" && String.eqb mark "?"
      then if String.eqb proj "*" then Some (Select None table col)
           else if is_name proj then Some (Select (Some proj) table col)
           else None
      else None
  | _ => None
  end.

Definition parse (sql : string) : option statement :=
  ts ← tokenize sql "";
  match parse_insert ts with
  | Some st => Some st
  | None => parse_select ts
  end.

(** Modelled from the spec: the key column of each table, which is also the
    column the handlers' WHERE clauses name. *)
Definition primary_key (table : string) : option string :=
  if String.eqb table "Church" then Some "churchId"
  else if String.eqb table "Person" then Some "personId"
  else if String.eqb table "Stats" then Some "statsId"
  else if String.eqb table "User" then Some "userId"
  else if String.eqb table "Calendar" then Some "id"
  else if String.eqb table "Assets" then Some "asset_id"
  else if String.eqb table "Locations" then Some "location_id"
  else None.

(** The rows of each table by key, and the next key of each table. *)
Record state := {
  tables : gmap string (gmap Z (gmap string value));
  auto_increment : gmap string Z
}.

Definition empty : state := {| tables := ∅; auto_increment := ∅ |}.

Definition table_of (db : state) (t : string) : gmap Z (gmap string value) :=
  default ∅ (tables db !! t).

Definition next_key (db : state) (t : string) : Z :=
  default 1 (auto_increment db !! t).

(** The values that replace the placeholders: none when the argument is left
    out or nullish, the array's elements, or the one bare value. *)
Definition bound (b : bindings) : list value :=
  match b with
  | Absent => []
  | Array vs => vs
  | Scalar VUndefined | Scalar VNull => []
  | Scalar v => [v]
  end.

(** A bound [undefined] is written NULL. *)
Definition to_sql (v : value) : value :=
  match v with
  | VUndefined => VNull
  | _ => v
  end.

Definition is_NaN (v : value) : bool :=
  match v with VNumber NaN => true | _ => false end.

(** The key a bound value selects, if it denotes a number. *)
Definition key_of (v : value) : option Z :=
  match v with
  | VUndefined | VNull => None
  | _ => match ToNumber v with IsInt k => Some k | _ => None end
  end.

Definition error (c : string) : outcome := Failed {| code := c; message := c |}.

Definition project (projection : option string) (r : gmap string value)
  : option (gmap string value) :=
  match projection with
  | None => Some r
  | Some c => v ← r !! c; Some {[ c := v ]}
  end.

(** Modelled from the spec: the executor's answer to one statement.  An
    INSERT stores the bound values as given under a fresh key and reports
    that key; a SELECT by key returns the row stored under it, if any. *)
Definition exec (db : state) (sql : string) (values : bindings) : outcome * state :=
  match parse sql with
  | None => (error "ER_PARSE_ERROR", db)
  | Some (Insert t columns marks) =>
      match primary_key t with
      | None => (error "ER_NO_SUCH_TABLE", db)
      | Some pk =>
          let vs := take marks (bound values) in
          if negb (length vs =? marks)%nat then (error "ER_PARSE_ERROR", db)
          else if negb (length columns =? marks)%nat
               then (error "ER_WRONG_VALUE_COUNT_ON_ROW", db)
          else if existsb is_NaN vs then (error "ER_BAD_FIELD_ERROR", db)
          else if existsb (String.eqb pk) columns then (error "ER_NOT_SUPPORTED_YET", db)
          else
            let id := next_key db t in
            let r := <[ pk := num id ]> (list_to_map (zip columns (to_sql <$> vs))) in
            (Succeeded (Ok {| affectedRows := 1; insertId := id |}),
             {| tables := <[ t := <[ id := r ]> (table_of db t) ]> (tables db);
                auto_increment := <[ t := id + 1 ]> (auto_increment db) |})
      end
  | Some (Select projection t col) =>
      match primary_key t with
      | None => (error "ER_NO_SUCH_TABLE", db)
      | Some pk =>
          match bound values with
          | [] => (error "ER_PARSE_ERROR", db)
          | v :: _ =>
              if is_NaN v then (error "ER_BAD_FIELD_ERROR", db)
              else if negb (String.eqb col pk) then (error "ER_NOT_SUPPORTED_YET", db)
              else
                match key_of v ≫= (fun k => table_of db t !! k) with
                | None => (Succeeded (RowDataPackets []), db)
                | Some r =>
                    match project projection r with
                    | Some r' => (Succeeded (RowDataPackets [r']), db)
                    | None => (error "ER_BAD_FIELD_ERROR", db)
                    end
                end
          end
      end
  end.

End MemDb.

(* ===================================================================== *)
(** ** Vocabulary and scenarios of the properties *)
(* ===================================================================== *)

(** Proof steps shared by the properties below: take the executor's answer
    to the handler's statement, split on the tests the callback makes, and
    evaluate. *)
Ltac split_tests :=
  repeat match goal with
         | |- context [if ?b then _ else _] => destruct b eqn:?
         end.

Ltac now_compute := simpl; split_tests; vm_compute; try reflexivity.

Ltac first_answer exec db :=
  unfold answers; simpl;
  let o := fresh "o" in
  let db1 := fresh "db" in
  let E := fresh "E" in
  destruct (exec db _ _) as [o db1] eqn:E; simpl;
  destruct o as [?err|?result].

Definition zero_rows_affected : outcome :=
  Succeeded (Ok {| affectedRows := 0; insertId := 0 |}).

Definition no_rows : outcome := Succeeded (RowDataPackets []).

(** [occurs needle s]: [needle] is a substring of [s]. *)
Definition occurs (needle s : string) : bool :=
  match index 0 needle s with
  | Some _ => true
  | None => false
  end.

(** The request [METHOD path/:id] with only the path parameter [name]. *)
Definition with_param (name v : string) : Request :=
  {| params := {[ name := v ]}; body := ∅ |}.

(** The request with the given JSON body and no path parameter. *)
Definition with_body (members : list (string * value)) : Request :=
  {| params := ∅; body := list_to_map members |}.

(** The answer to the login's lookup when the user exists. *)
Definition stored (password : string) : outcome :=
  Succeeded (RowDataPackets [ {[ "password" := VString password ]} ]).

(** A run that writes one response, with the given status, and ends
    without an exception. *)
Definition answers_once_with (status : Z) (t : list event) : Prop :=
  responses t = 1%nat
  /\ uncaught_of t = None
  /\ exists payload, response_of t = Some (status, payload).

(** alice exists with password [secret]; bob does not exist. *)
Definition wrong_password : list event :=
  fed [stored "secret"]
      (User.login (with_body [("username", VString "alice");
                              ("password", VString "guess")])).

Definition unknown_username : list event :=
  fed [no_rows]
      (User.login (with_body [("username", VString "bob");
                              ("password", VString "guess")])).

(** The bound values of the Assets INSERT. *)
Definition asset_values (req : Request) : list value :=
  [ field req "location_id";
    field req "name";
    field req "description";
    or_else (field req "purchase_date") VNull;
    or_else (field req "purchase_price") VNull;
    field req "serial_number";
    field req "category";
    field req "condition";
    or_else (field req "last_maintenance_date") VNull ].

(** An update of asset 1 that names location 999. *)
Definition move_to_missing_location : Request :=
  {| params := {[ "id" := "1" ]};
     body := list_to_map [("location_id", num 999); ("name", VString "Projector")] |}.

Definition moved : list event :=
  fed [Succeeded (Ok {| affectedRows := 1; insertId := 0 |})]
      (Assets.update move_to_missing_location).

(** The reply of a handler whose first statement fails with [err]. *)
Definition reply_on_error (err : MysqlError) (req : Request) (h : Request -> prog)
  : option (Z * json) :=
  response_of (fed [Failed err] (h req)).

(** An object payload with a member equal to the text [s]. *)
Definition carries (s : string) (payload : json) : bool :=
  match payload with
  | JObject members =>
      existsb (fun m => match snd m with
                        | MValue (VString s') => String.eqb s' s
                        | _ => false
                        end) members
  | _ => false
  end.

(** The location HQ. *)
Definition headquarters : Request :=
  with_body [("name", VString "HQ"); ("address", VString "1 Main St");
             ("contact_person", VString "A"); ("contact_phone", VString "000")].

(** A projector for location 1, whose row in Locations is named HQ. *)
Definition projector : Request :=
  with_body [("location_id", num 1); ("name", VString "Projector")].

Definition access_denied : MysqlError :=
  {| code := "ER_ACCESS_DENIED_ERROR";
     message := "ER_ACCESS_DENIED_ERROR: Access denied for user 'root'@'localhost' (using password: YES)" |}.











(** How many statements a handler sends when fed [os]. *)
Definition statements (os : list outcome) (p : prog) : nat :=
  length (queries_of (fed os p)).

(** The handlers that answer every outcome of their statement. *)
Definition answering_handlers : list (Request -> prog) :=
  [ Church.get_all; Church.get_by_id; Church.create; Church.update;
    Church.delete_by_id;
    Locations.get_all; Locations.create; Locations.update;
    Locations.delete_by_id;
    Assets.update; Assets.delete_by_id ].

(** A projector given a price of 0 and an empty purchase date. *)
Definition free_projector : Request :=
  with_body [("location_id", num 1); ("name", VString "Projector");
             ("purchase_price", num 0); ("purchase_date", VString "")].

(** What may follow the digits of an identifier without changing what
    [parseInt] reads: nothing, or a character that is neither a digit nor the
    [x] of a hexadecimal prefix. *)
Definition trailing_text (s : string) : bool :=
  match s with
  | EmptyString => true
  | String a _ =>
      let n := nat_of_ascii a in
      negb ((48 <=? n) && (n <=? 57))%nat && negb (n =? 120)%nat && negb (n =? 88)%nat
  end.

(** A path parameter that does not start an integer: empty, or starting
    with a single-byte character that is not a digit, a sign or white
    space. *)
Definition not_an_identifier (s : string) : bool :=
  match s with
  | EmptyString => true
  | String a _ =>
      let n := nat_of_ascii a in
      (n <? 128)%nat
      && negb ((48 <=? n) && (n <=? 57))%nat && negb (is_white_space a)
      && negb (n =? 43)%nat && negb (n =? 45)%nat
  end.

(* ===================================================================== *)
(** ** Properties *)
(* ===================================================================== *)

(** *** Runs and replays *)

(** A run against any executor is the replay of what the executor
    delivered: a handler sees the store only through callback arguments. *)
Lemma run_replay {DB : Type} (exec : DB -> string -> bindings -> outcome * DB) :
  forall (p : prog) (db : DB) (sent : bool),
    fst (run exec db sent p) = replay (delivered exec db sent p) sent p.
Proof.
  induction p as [ | sql values callback IH | status payload rest IH | e ];
    intros db sent; simpl.
  - reflexivity.
  - destruct (exec db sql values) as [o db1] eqn:E.
    specialize (IH o db1 sent).
    destruct (run exec db1 sent (callback o)) as [t db2]. simpl in *.
    now rewrite IH.
  - destruct sent; [destruct (sets_headers payload); [reflexivity | apply IH]|].
    specialize (IH db true).
    destruct (run exec db true rest) as [t db']. simpl in *.
    now rewrite IH.
  - reflexivity.
Qed.

Lemma serve_replay {DB : Type} (exec : DB -> string -> bindings -> outcome * DB)
      (db : DB) (p : prog) :
  fst (serve exec db p) = replay (answers exec db p) false p.
Proof. apply run_replay. Qed.

(** So what is proved of a handler fed some answers holds of its run
    against every executor that delivers those answers. *)
Lemma serve_fed {DB : Type} (exec : DB -> string -> bindings -> outcome * DB)
      (db : DB) (p : prog) (os : list outcome) :
  answers exec db p = os -> fst (serve exec db p) = fed os p.
Proof. intros <-. apply serve_replay. Qed.

(** *** Identifiers and field values in the statement text *)

(** C1 (the code at the failing inputs).  The claim asks that identifiers
    and field values reach the executor as bound parameters only.  Here the
    Assets delete, the Person read and the Person create are run: each sends
    a statement with no bound values at all, and the identifier
    ["1 OR 1=1"], the identifier ["7"] and the name ["O'Brien"] are spelled
    inside the statement text, the last one with its quote unescaped. *)
Theorem identifiers_and_fields_spelled_in_statement_text :
  forall (DB : Type) (exec : DB -> string -> bindings -> outcome * DB) (db : DB),
    queries_of (fst (serve exec db (Assets.delete_by_id (with_param "id" "1 OR 1=1"))))
      = [("DELETE FROM Assets WHERE asset_id=1 OR 1=1", Absent)]
    /\ queries_of (fst (serve exec db (Person.get_by_id (with_param "id" "7"))))
      = [("select * from Person where personId=7", Absent)]
    /\ exists sql,
        queries_of (fst (serve exec db
                           (Person.create (with_body [("name", VString "O'Brien")]))))
          = [(sql, Absent)]
        /\ occurs "'O'Brien'" sql = true.
Proof.
  intros DB exec db. rewrite !serve_replay.
  split; [|split].
  - first_answer exec db; now_compute.
  - first_answer exec db; now_compute.
  - eexists. split.
    + first_answer exec db; now_compute.
    + vm_compute. reflexivity.
Qed.

(** It is so for every request: the handlers of Person, Stats, User and
    Calendar, and the Assets list, read, update and delete, hand the pool a
    statement text and no values. *)
Lemma interpolating_handlers_bind_nothing :
  forall (req : Request) (os : list outcome),
    Forall (fun h : Request -> prog =>
              exists sql tail, fed os (h req) = EvQuery sql Absent :: tail)
           [ Person.get_all; Person.get_by_id; Person.create; Person.update;
             Person.delete_by_id;
             Stats.get_all; Stats.get_by_id; Stats.create; Stats.update;
             Stats.delete_by_id;
             User.get_all; User.get_by_id; User.create; User.update;
             User.delete_by_id;
             Calendar.get_all; Calendar.get_by_id; Calendar.create; Calendar.update;
             Calendar.delete_by_id;
             Assets.get_all; Assets.get_by_id; Assets.update; Assets.delete_by_id ].
Proof.
  intros req os. repeat (constructor; [ eexists _, _; reflexivity | ]).
  constructor.
Qed.

(** X6.  The sibling handlers bind what they are given: the statement texts of
    the Church and Locations handlers are the same for every request. *)
Lemma church_locations_text_is_fixed :
  forall (req req' : Request) (os : list outcome),
    Forall (fun h : Request -> prog =>
              fst <$> queries_of (fed os (h req)) = fst <$> queries_of (fed os (h req')))
           [ Church.get_all; Church.get_by_id; Church.create; Church.update;
             Church.delete_by_id;
             Locations.get_all; Locations.create; Locations.update;
             Locations.delete_by_id ].
Proof.
  intros req req' os.
  repeat (constructor;
          [ destruct os as [|[err|result] os']; unfold fed; simpl;
            split_tests; reflexivity | ]).
  constructor.
Qed.

(** And the identifier travels in the bound values. *)
Lemma church_locations_bind_identifier :
  forall (req : Request) (os : list outcome),
    (exists tail,
        fed os (Church.get_by_id req)
        = EvQuery "SELECT * FROM Church WHERE churchId = ?"
                  (Array [VNumber (parseInt (param req "churchId"))]) :: tail)
    /\ (exists tail,
        fed os (Church.delete_by_id req)
        = EvQuery "DELETE FROM Church WHERE churchId = ?"
                  (Array [VNumber (parseInt (param req "id"))]) :: tail)
    /\ (exists tail,
        fed os (Locations.delete_by_id req)
        = EvQuery "DELETE FROM Locations WHERE location_id = ?"
                  (Array [VNumber (parseInt (param req "id"))]) :: tail).
Proof.
  intros req os. repeat split; eexists; reflexivity.
Qed.

(** *** Updates and deletes that match no row *)

(** C2 (the code at the failing inputs).  The claim asks for a 404 when an
    update or delete by identifier affects no row.  Fed an answer that
    reports zero affected rows and no error, these handlers answer 200,
    whatever the request: the Church, Stats and Calendar updates and the
    Person, Stats, User and Calendar deletes. *)
Theorem zero_rows_affected_answered_200 :
  forall req : Request,
    let reply (h : Request -> prog) :=
      response_of (fed [zero_rows_affected] (h req)) in
    let packet := Ok {| affectedRows := 0; insertId := 0 |} in
    reply Church.update
      = Some (200, JObject [("message", mtext "Church updated successfully");
                            ("result", MResult packet)])
    /\ reply Person.delete_by_id = Some (200, JResult packet)
    /\ reply Stats.update = Some (200, JResult packet)
    /\ reply Stats.delete_by_id = Some (200, JResult packet)
    /\ reply User.delete_by_id = Some (200, JResult packet)
    /\ reply Calendar.update = Some (200, JResult packet)
    /\ reply Calendar.delete_by_id = Some (200, JResult packet).
Proof. intros req. repeat split; reflexivity. Qed.

(** The sibling handlers do test [affectedRows]: on zero rows the Church
    delete and the Assets and Locations updates and deletes answer 404. *)
Lemma zero_rows_affected_answered_404 :
  forall req : Request,
    let reply (h : Request -> prog) :=
      response_of (fed [zero_rows_affected] (h req)) in
    reply Church.delete_by_id = Some (404, message_only "Church not found")
    /\ reply Assets.update = Some (404, message_only "Asset not found")
    /\ reply Assets.delete_by_id = Some (404, message_only "Asset not found")
    /\ reply Locations.update
       = Some (404, message_only "Location not found or update failed")
    /\ reply Locations.delete_by_id = Some (404, message_only "Location not found").
Proof. intros req. repeat split; reflexivity. Qed.

(** *** Reads by identifier that match no row *)

(** C3 (the code at the failing inputs).  The claim asks for a 404 when no
    row has the identifier.  Fed an empty row set and no error, the Person,
    Stats, User and Calendar reads answer 200 with the empty array, whatever
    the request. *)
Theorem absent_row_answered_200_empty :
  forall req : Request,
    let reply (h : Request -> prog) :=
      response_of (fed [no_rows] (h req)) in
    reply Person.get_by_id = Some (200, JResult (RowDataPackets []))
    /\ reply Stats.get_by_id = Some (200, JResult (RowDataPackets []))
    /\ reply User.get_by_id = Some (200, JResult (RowDataPackets []))
    /\ reply Calendar.get_by_id = Some (200, JResult (RowDataPackets [])).
Proof. intros req. repeat split; reflexivity. Qed.

(** The sibling handlers do test [result.length]: on an empty row set the
    Church and Assets reads answer 404. *)
Lemma absent_row_answered_404 :
  forall req : Request,
    let reply (h : Request -> prog) :=
      response_of (fed [no_rows] (h req)) in
    reply Church.get_by_id = Some (404, message_only "Church not found")
    /\ reply Assets.get_by_id = Some (404, message_only "Asset not found").
Proof. intros req. repeat split; reflexivity. Qed.

(** *** The Person and User updates *)

(** C10.  Whatever the executor, the store and the request, the Person and
    the User update handlers write no response at all; when the executor
    answers their statement with success the callback ends on the unbound
    identifier [response], and otherwise it returns silently. *)
Theorem person_user_update_never_reply :
  forall (DB : Type) (exec : DB -> string -> bindings -> outcome * DB)
         (db : DB) (request : Request),
    let tp := fst (serve exec db (Person.update request)) in
    let tu := fst (serve exec db (User.update request)) in
    response_of tp = None
    /\ response_of tu = None
    /\ uncaught_of tp =
         match answers exec db (Person.update request) with
         | [Succeeded _] => Some (ReferenceError "response")
         | _ => None
         end
    /\ uncaught_of tu =
         match answers exec db (User.update request) with
         | [Succeeded _] => Some (ReferenceError "response")
         | _ => None
         end.
Proof.
  intros DB exec db request tp tu. subst tp tu. rewrite !serve_replay.
  repeat split.
  - first_answer exec db; reflexivity.
  - first_answer exec db; reflexivity.
  - first_answer exec db; reflexivity.
  - first_answer exec db; reflexivity.
Qed.

(** *** The login *)

(** C5, as stated, fails.  With a wrong password for an existing user the
    handler writes the 401 and then attempts the 200, which raises; its body
    says that the password is what was wrong.  For an unknown user the
    handler reads [res[0].password] on an empty array and writes nothing.
    So the run is not a single clean 401, and the two cases get different
    responses. *)
Lemma login_wrong_password_counterexample :
  wrong_password
    = [ EvQuery "select password from User where username=?" (Scalar (VString "alice"));
        EvResponse 401 (text "Unaurthorized, invalid password");
        EvUncaught ERR_HTTP_HEADERS_SENT ]
  /\ unknown_username
    = [ EvQuery "select password from User where username=?" (Scalar (VString "bob"));
        EvUncaught TypeError ]
  /\ ~ answers_once_with 401 wrong_password
  /\ response_of wrong_password <> response_of unknown_username.
Proof.
  split; [reflexivity|]. split; [reflexivity|]. split.
  - intros (_ & Hexn & _). vm_compute in Hexn. discriminate Hexn.
  - intros H. vm_compute in H. discriminate H.
Qed.

(** C5, amended.  When the lookup returns a row whose password differs
    ([!=]) from the one supplied, the response the client receives is the
    401 whose body is ["Unaurthorized, invalid password"].  The stored
    password is a string or NULL and the supplied one a string, [null] or
    left out, so that [!=] compares the two as they are. *)
Theorem login_wrong_password_reply :
  forall (request : Request) (row0 : gmap string value)
         (rest : list (gmap string value)),
    plain (column row0 "password") = true ->
    plain (field request "password") = true ->
    loose_neq (column row0 "password") (field request "password") = true ->
    response_of (fed [Succeeded (RowDataPackets (row0 :: rest))] (User.login request))
      = Some (401, text "Unaurthorized, invalid password").
Proof.
  intros request row0 rest Hstored _ H. unfold fed, User.login. simpl.
  replace (User.JSON_copy (column row0 "password")) with (column row0 "password")
    by (destruct (column row0 "password") as [| | |[|]|]; try reflexivity;
        discriminate Hstored).
  now rewrite H.
Qed.

Lemma login_wrong_password_reply_witness :
  plain (column {[ "password" := VString "secret" ]} "password") = true
  /\ plain (field (with_body [("username", VString "alice");
                              ("password", VString "guess")]) "password") = true
  /\ loose_neq (column {[ "password" := VString "secret" ]} "password")
               (field (with_body [("username", VString "alice");
                                  ("password", VString "guess")]) "password") = true
  /\ response_of wrong_password = Some (401, text "Unaurthorized, invalid password").
Proof.
  split; [reflexivity|]. split; [reflexivity|]. split; [reflexivity|].
  apply (login_wrong_password_reply
           (with_body [("username", VString "alice"); ("password", VString "guess")])
           {[ "password" := VString "secret" ]} []); reflexivity.
Defined.

(** A matching password gets the 200 and nothing else. *)
Lemma login_right_password_reply :
  forall (request : Request) (row0 : gmap string value)
         (rest : list (gmap string value)),
    loose_neq (User.JSON_copy (column row0 "password")) (field request "password") = false ->
    exists sql values,
      fed [Succeeded (RowDataPackets (row0 :: rest))] (User.login request)
        = [ EvQuery sql values;
            EvResponse 200 (text "Auth Successfully, Access Granted!!") ].
Proof.
  intros request row0 rest H. unfold fed, User.login. simpl.
  rewrite H. now eexists _, _.
Qed.

(** *** The location check of the Assets routes *)

(** C4, as stated, fails for Update.  The first and only statement of the
    Assets update is the UPDATE itself, with the location id spelled in it:
    no lookup in Locations is sent, and once the UPDATE reports a changed row
    the handler answers 200. *)
Lemma asset_update_skips_location_lookup :
  existsb (String.eqb Assets.checkLocationSQL) (fst <$> queries_of moved) = false
  /\ (exists sql, queries_of moved = [(sql, Absent)]
                  /\ String.prefix "UPDATE Assets SET" sql = true
                  /\ occurs "location_id='999'" sql = true)
  /\ response_of moved = Some (200, JResult (Ok {| affectedRows := 1; insertId := 0 |})).
Proof.
  split; [reflexivity|]. split; [|reflexivity].
  eexists. split; [reflexivity|]. split; reflexivity.
Qed.

(** C4, amended.  Create on Assets answers 400 before sending anything
    when [location_id] is falsy or not numeric.  Otherwise it first looks the
    location up with the id bound; fed no row it answers 404
    ["Invalid location ID"] and sends no INSERT; fed a row and then a
    successful INSERT it answers with a message that carries the [name] of
    the row that was looked up (the two names of the message being texts, or
    numbers of the safe range). *)
Theorem asset_create_checks_location :
  forall (req : Request) (row0 : gmap string value)
         (rest : list (gmap string value)) (result : Mysql.result)
         (os : list outcome),
    if negb (ToBoolean (field req "location_id")) || isNaN (field req "location_id")
    then fed os (Assets.create req)
         = [ EvResponse 400 (message_only "Invalid or missing location_id") ]
    else
      fed [no_rows] (Assets.create req)
        = [ EvQuery Assets.checkLocationSQL (Array [field req "location_id"]);
            EvResponse 404 (message_only "Invalid location ID") ]
      /\ (safe_value (field req "name") = true ->
          safe_value (column row0 "name") = true ->
          fed [Succeeded (RowDataPackets (row0 :: rest)); Succeeded result]
              (Assets.create req)
          = [ EvQuery Assets.checkLocationSQL (Array [field req "location_id"]);
              EvQuery Assets.insertSQL (Array (asset_values req));
              EvResponse 200
                (JObject [
                   ("message",
                    mtext (template [
                      Lit "Asset '"; Sub (field req "name");
                      Lit "' added successfully at location '";
                      Sub (column row0 "name"); Lit "'"]));
                   ("assetId", MValue (insertId_of result))]) ]).
Proof.
  intros req row0 rest result os.
  unfold fed, Assets.create.
  destruct (negb (ToBoolean (field req "location_id")) || isNaN (field req "location_id")).
  - reflexivity.
  - split; [reflexivity|]. intros _ _. reflexivity.
Qed.

Lemma asset_create_checks_location_witness :
  (negb (ToBoolean (field projector "location_id")) || isNaN (field projector "location_id"))
    = false
  /\ safe_value (field projector "name") = true
  /\ safe_value (column {[ "name" := VString "HQ" ]} "name") = true
  /\ fed [Succeeded (RowDataPackets [ {[ "name" := VString "HQ" ]} ]);
          Succeeded (Ok {| affectedRows := 1; insertId := 5 |})]
         (Assets.create projector)
     = [ EvQuery Assets.checkLocationSQL (Array [num 1]);
         EvQuery Assets.insertSQL (Array (asset_values projector));
         EvResponse 200
           (JObject [("message",
                      mtext "Asset 'Projector' added successfully at location 'HQ'");
                     ("assetId", MValue (num 5))]) ].
Proof.
  split; [reflexivity|]. split; [reflexivity|]. split; [reflexivity|].
  pose proof (asset_create_checks_location
                projector {[ "name" := VString "HQ" ]} []
                (Ok {| affectedRows := 1; insertId := 5 |}) []) as H.
  change (negb (ToBoolean (field projector "location_id"))
          || isNaN (field projector "location_id")) with false in H.
  destruct H as [_ H].
  exact (H eq_refl eq_refl).
Defined.

(** The projector, fed the row of HQ and a successful INSERT. *)
Example projector_at_headquarters :
  fed [Succeeded (RowDataPackets [ {[ "name" := VString "HQ" ]} ]);
       Succeeded (Ok {| affectedRows := 1; insertId := 5 |})]
      (Assets.create projector)
  = [ EvQuery "SELECT name FROM Locations WHERE location_id = ?" (Array [num 1]);
      EvQuery Assets.insertSQL
        (Array [num 1; VString "Projector"; VUndefined; VNull; VNull;
                VUndefined; VUndefined; VUndefined; VNull]);
      EvResponse 200
        (JObject [("message",
                   mtext "Asset 'Projector' added successfully at location 'HQ'");
                  ("assetId", MValue (num 5))]) ].
Proof. reflexivity. Qed.

(** Whatever it is fed, the update sends its UPDATE first. *)
Lemma asset_update_sends_update_first :
  forall (req : Request) (os : list outcome),
    exists sql tail,
      fed os (Assets.update req) = EvQuery sql Absent :: tail
      /\ String.prefix "UPDATE Assets SET" sql = true.
Proof. intros req os. eexists _, _. split; reflexivity. Qed.

(** Against the reference executor: once HQ is created, the projector is
    accepted with a message that names HQ and the key of the new asset; on an
    empty store the projector is refused and the lookup is the only
    statement sent. *)
Example headquarters_then_projector :
  response_of
    (fst (serve MemDb.exec
            (snd (serve MemDb.exec MemDb.empty (Locations.create headquarters)))
            (Assets.create projector)))
    = Some (200,
            JObject [("message",
                      mtext "Asset 'Projector' added successfully at location 'HQ'");
                     ("assetId", MValue (num 1))])
  /\ fst (serve MemDb.exec MemDb.empty (Assets.create projector))
     = [ EvQuery Assets.checkLocationSQL (Array [num 1]);
         EvResponse 404 (message_only "Invalid location ID") ].
Proof. split; vm_compute; reflexivity. Qed.

(** *** What a successful Create answers *)

(** C6, as stated, fails.  A Person create that the executor reports as
    successful is answered 200, not 201, and the body is the driver's packet
    with no confirmation message. *)
Lemma person_create_status_counterexample :
  response_of (fed [Succeeded (Ok {| affectedRows := 1; insertId := 7 |})]
                   (Person.create (with_body [("name", VString "Thabo")])))
    = Some (200, JResult (Ok {| affectedRows := 1; insertId := 7 |}))
  /\ ~ (exists payload,
         response_of (fed [Succeeded (Ok {| affectedRows := 1; insertId := 7 |})]
                          (Person.create (with_body [("name", VString "Thabo")])))
           = Some (201, payload)).
Proof.
  split; [reflexivity|]. intros [payload H]. vm_compute in H. discriminate H.
Qed.

(** C6, amended.  A Create whose statements succeed is answered
    - 201 with a confirmation message and the driver's result (which holds
      [insertId]) by Church and Locations;
    - 200 with the driver's result alone by Person, Stats, User and Calendar;
    - 200 with a confirmation message and [assetId], the result's
      [insertId], by Assets once [location_id] passed the guard and the
      location was found (the two names of the message being texts, or
      numbers of the safe range). *)
Theorem create_success_reply :
  forall (req : Request) (result : Mysql.result)
         (row0 : gmap string value) (rest : list (gmap string value)),
    let reply (h : Request -> prog) := response_of (fed [Succeeded result] (h req)) in
    reply Church.create
      = Some (201, JObject [("message", mtext "Church created successfully");
                            ("result", MResult result)])
    /\ reply Locations.create
       = Some (201, JObject [("message", mtext "Location added successfully");
                             ("result", MResult result)])
    /\ reply Person.create = Some (200, JResult result)
    /\ reply Stats.create = Some (200, JResult result)
    /\ reply User.create = Some (200, JResult result)
    /\ reply Calendar.create = Some (200, JResult result)
    /\ (safe_value (field req "name") = true ->
        safe_value (column row0 "name") = true ->
        response_of (fed [Succeeded (RowDataPackets (row0 :: rest)); Succeeded result]
                         (Assets.create req))
        = (if negb (ToBoolean (field req "location_id")) || isNaN (field req "location_id")
           then Some (400, message_only "Invalid or missing location_id")
           else Some (200,
                      JObject [
                        ("message",
                         mtext (template [
                           Lit "Asset '"; Sub (field req "name");
                           Lit "' added successfully at location '";
                           Sub (column row0 "name"); Lit "'"]));
                        ("assetId", MValue (insertId_of result))]))).
Proof.
  intros req result row0 rest reply. subst reply.
  repeat split; try reflexivity.
  intros _ _. unfold fed, Assets.create.
  destruct (negb (ToBoolean (field req "location_id")) || isNaN (field req "location_id"));
    reflexivity.
Qed.

Lemma create_success_reply_witness :
  safe_value (field projector "name") = true
  /\ safe_value (column {[ "name" := VString "HQ" ]} "name") = true
  /\ response_of (fed [Succeeded (RowDataPackets [ {[ "name" := VString "HQ" ]} ]);
                       Succeeded (Ok {| affectedRows := 1; insertId := 5 |})]
                      (Assets.create projector))
     = Some (200,
             JObject [("message",
                       mtext "Asset 'Projector' added successfully at location 'HQ'");
                      ("assetId", MValue (num 5))]).
Proof.
  split; [reflexivity|]. split; [reflexivity|].
  destruct (create_success_reply
              projector (Ok {| affectedRows := 1; insertId := 5 |})
              {[ "name" := VString "HQ" ]} []) as (_ & _ & _ & _ & _ & _ & H).
  exact (H eq_refl eq_refl).
Defined.

(** *** Creates with fields left out *)

(** C7, as stated, fails.  A Locations create with an empty body sends the
    INSERT with four undefined values and, when the executor accepts it, is
    answered 201. *)
Lemma create_without_fields_counterexample :
  fed [Succeeded (Ok {| affectedRows := 1; insertId := 1 |})]
      (Locations.create (with_body []))
    = [ EvQuery
          "INSERT INTO Locations (name, address, contact_person, contact_phone) VALUES (?, ?, ?, ?)"
          (Array [VUndefined; VUndefined; VUndefined; VUndefined]);
        EvResponse 201
          (JObject [("message", mtext "Location added successfully");
                    ("result", MResult (Ok {| affectedRows := 1; insertId := 1 |}))]) ].
Proof. reflexivity. Qed.

(** C7, amended.  No Create looks for missing fields.  Whatever the body
    and whatever it is fed, the Church, Locations, Person, Stats, User and
    Calendar creates start by sending their INSERT, with the fields of the
    body bound as they are (or spelled in the text); the Assets create
    answers 400 ["Invalid or missing location_id"] without sending anything
    when [location_id] is falsy or not numeric, and otherwise starts with
    the location lookup. *)
Theorem create_sends_insert_unchecked :
  forall (req : Request) (os : list outcome),
    (exists tail,
        fed os (Church.create req)
        = EvQuery
            "INSERT INTO Church (churchName, location, branch, province, city, region, pastorId) VALUES (?, ?, ?, ?, ?, ?, ?)"
            (Array [field req "churchName"; field req "location"; field req "branch";
                    field req "province"; field req "city"; field req "region";
                    field req "pastorId"])
          :: tail)
    /\ (exists tail,
        fed os (Locations.create req)
        = EvQuery
            "INSERT INTO Locations (name, address, contact_person, contact_phone) VALUES (?, ?, ?, ?)"
            (Array [field req "name"; field req "address";
                    field req "contact_person"; field req "contact_phone"])
          :: tail)
    /\ (exists sql tail,
        fed os (Person.create req) = EvQuery sql Absent :: tail
        /\ String.prefix "INSERT INTO Person" sql = true)
    /\ (exists sql tail,
        fed os (Stats.create req) = EvQuery sql Absent :: tail
        /\ String.prefix "INSERT INTO Stats" sql = true)
    /\ (exists sql tail,
        fed os (User.create req) = EvQuery sql Absent :: tail
        /\ String.prefix "INSERT INTO User" sql = true)
    /\ (exists sql tail,
        fed os (Calendar.create req) = EvQuery sql Absent :: tail
        /\ String.prefix "INSERT INTO Calendar" sql = true)
    /\ (if negb (ToBoolean (field req "location_id")) || isNaN (field req "location_id")
        then fed os (Assets.create req)
             = [ EvResponse 400 (message_only "Invalid or missing location_id") ]
        else exists tail,
            fed os (Assets.create req)
            = EvQuery Assets.checkLocationSQL (Array [field req "location_id"]) :: tail).
Proof.
  intros req os.
  repeat (split; [ repeat eexists; try reflexivity | ]).
  unfold fed, Assets.create.
  destruct (negb (ToBoolean (field req "location_id")) || isNaN (field req "location_id")).
  - reflexivity.
  - eexists. reflexivity.
Qed.

(** *** What a database error answers *)

(** C8, as stated, fails.  When the pool fails, the Church list answers 500
    with the driver's message as the [error] member of the body. *)
Lemma church_list_error_counterexample :
  response_of (fed [Failed access_denied] (Church.get_all (with_body [])))
    = Some (500,
            error_only
              "ER_ACCESS_DENIED_ERROR: Access denied for user 'root'@'localhost' (using password: YES)").
Proof. reflexivity. Qed.

(** C8, amended.  On a database error
    - the Church list, create and update, the Locations list and create, and
      the INSERT of the Assets create put [err.message] in the body, under
      500 or 400;
    - the reads, updates and deletes by identifier that answer at all (all of
      Church, Assets and Locations, and the reads and deletes of Person,
      Stats, User and Calendar) answer 404 with a fixed message, and the
      location lookup of the Assets create answers 500 ["Database error"]. *)
Theorem database_error_reply :
  forall (err : MysqlError) (req : Request)
         (row0 : gmap string value) (rest : list (gmap string value)),
    let reply (h : Request -> prog) := response_of (fed [Failed err] (h req)) in
    let guard :=
      negb (ToBoolean (field req "location_id")) || isNaN (field req "location_id") in
    (reply Church.get_all = Some (500, error_only (message err))
     /\ reply Church.create = Some (400, error_only (message err))
     /\ reply Church.update = Some (500, error_only (message err))
     /\ reply Locations.get_all = Some (500, message_only (message err))
     /\ reply Locations.create = Some (400, message_only (message err))
     /\ response_of (fed [Succeeded (RowDataPackets (row0 :: rest)); Failed err]
                         (Assets.create req))
        = if guard then Some (400, message_only "Invalid or missing location_id")
          else Some (500, JObject [("message", mtext "Error adding asset");
                                   ("error", mtext (message err))]))
    /\ (reply Church.get_by_id = Some (404, message_only "Church not found")
        /\ reply Church.delete_by_id = Some (404, message_only "Church not found")
        /\ reply Person.get_by_id = Some (404, message_only "Person not found")
        /\ reply Person.delete_by_id = Some (404, message_only "Person not found")
        /\ reply Stats.get_by_id = Some (404, message_only "Stats not found")
        /\ reply Stats.delete_by_id = Some (404, message_only "Stats not found")
        /\ reply User.get_by_id = Some (404, message_only "User not found")
        /\ reply User.delete_by_id = Some (404, message_only "User not found")
        /\ reply Calendar.get_by_id = Some (404, message_only "Calendar event not found")
        /\ reply Calendar.delete_by_id = Some (404, message_only "Calendar not found")
        /\ reply Assets.get_by_id = Some (404, message_only "Asset not found")
        /\ reply Assets.update = Some (404, message_only "Asset not found")
        /\ reply Assets.delete_by_id = Some (404, message_only "Asset not found")
        /\ reply Locations.update
           = Some (404, message_only "Location not found or update failed")
        /\ reply Locations.delete_by_id = Some (404, message_only "Location not found")
        /\ reply Assets.create
           = if guard then Some (400, message_only "Invalid or missing location_id")
             else Some (500, message_only "Database error")).
Proof.
  intros err req row0 rest reply guard. subst reply guard.
  repeat split; try reflexivity.
  - unfold fed, Assets.create.
    destruct (negb (ToBoolean (field req "location_id")) || isNaN (field req "location_id"));
      reflexivity.
  - unfold fed, Assets.create.
    destruct (negb (ToBoolean (field req "location_id")) || isNaN (field req "location_id"));
      reflexivity.
Qed.

(** X5.  Every route, on a failure of its first statement: either the reply is
    the same whatever the error (a fixed message, or no reply at all), or it
    is an object with the error's message as a member. *)
Lemma route_replies_on_error :
  forall (err : MysqlError) (req : Request),
    Forall (fun route =>
              let h := snd route in
              (forall err', reply_on_error err' req h = reply_on_error err req h)
              \/ exists status payload,
                  reply_on_error err req h = Some (status, payload)
                  /\ carries (message err) payload = true)
           routes.
Proof.
  intros err req. unfold routes, reply_on_error.
  repeat
    (constructor;
     [ cbn [snd];
       first [ left; intros err'; reflexivity
             | left; intros err'; unfold fed, Assets.create;
               destruct (negb (ToBoolean (field req "location_id"))
                         || isNaN (field req "location_id")); reflexivity
             | right; eexists _, _; split;
               [ reflexivity | cbn; rewrite String.eqb_refl; reflexivity ] ]
     | ]).
  constructor.
Qed.

(** X4.  The remaining handlers return from the callback on an error without
    writing anything (the login raises while copying the undefined result),
    so the request is left unanswered. *)
Lemma database_error_unanswered :
  forall (err : MysqlError) (req : Request),
    let reply (h : Request -> prog) := response_of (fed [Failed err] (h req)) in
    Forall (fun h => reply h = None)
           [ Person.get_all; Stats.get_all; User.get_all; Calendar.get_all;
             Assets.get_all;
             Person.create; Stats.create; User.create; Calendar.create;
             Person.update; Stats.update; User.update; Calendar.update;
             User.login ].
Proof. intros err req reply. subst reply. repeat constructor. Qed.

(** *** Create, then read by the generated identifier *)




Lemma parseInt_minus (s : string) :
  parseInt_string (String "-" s) = parse_unsigned true s.
Proof. reflexivity. Qed.

Lemma string_of_positive (p : positive) :
  DecimalString.NilZero.string_of_uint (Pos.to_uint p)
  = DecimalString.NilEmpty.string_of_uint (Pos.to_uint p).
Proof.
  pose proof (DecimalPos.Unsigned.to_uint_nonnil p).
  unfold DecimalString.NilZero.string_of_uint. destruct (Pos.to_uint p); congruence.
Qed.








(** *** Further properties of the handlers *)






(** X1.  The Church and the Assets reads answer 404 exactly when the row set
    is empty, and 200 with the rows otherwise; the Assets read has no
    [return] after the 404, so on an empty row set it goes on to send the
    (empty) array and raises. *)
Theorem read_not_found_iff_no_row :
  forall (req : Request) (rows : list (gmap string value)),
    response_of (fed [Succeeded (RowDataPackets rows)] (Church.get_by_id req))
      = match rows with
        | [] => Some (404, message_only "Church not found")
        | _ :: _ => Some (200, JResult (RowDataPackets rows))
        end
    /\ exists sql,
        fed [Succeeded (RowDataPackets rows)] (Assets.get_by_id req)
        = EvQuery sql Absent
          :: match rows with
             | [] => [ EvResponse 404 (message_only "Asset not found");
                       EvUncaught ERR_HTTP_HEADERS_SENT ]
             | _ :: _ => [ EvResponse 200 (JResult (RowDataPackets rows)) ]
             end.
Proof.
  intros req rows. destruct rows as [|r rows]; split; try reflexivity;
    eexists; reflexivity.
Qed.

(** X2.  The Church delete and the Assets and Locations updates and deletes
    answer 404 exactly when the packet reports no affected row, and 200
    otherwise. *)
Theorem write_not_found_iff_no_row_affected :
  forall (req : Request) (p : OkPacket),
    let reply (h : Request -> prog) := response_of (fed [Succeeded (Ok p)] (h req)) in
    let missing (m : string) (found : json) :=
      if affectedRows p =? 0 then Some (404, message_only m) else Some (200, found) in
    reply Church.delete_by_id
      = missing "Church not found" (message_only "Church deleted successfully")
    /\ reply Assets.update = missing "Asset not found" (JResult (Ok p))
    /\ reply Assets.delete_by_id = missing "Asset not found" (JResult (Ok p))
    /\ reply Locations.update
       = missing "Location not found or update failed"
           (JObject [("message", mtext "Location updated successfully");
                     ("result", MResult (Ok p))])
    /\ reply Locations.delete_by_id
       = missing "Location not found" (message_only "Location deleted successfully").
Proof.
  intros req p reply missing. subst reply missing.
  unfold fed. simpl. destruct (affectedRows p =? 0); repeat split; reflexivity.
Qed.

(** X3.  The Church and Locations handlers and the Assets update and
    delete answer whatever their statement is answered with: exactly one
    response is written and nothing is raised. *)
Theorem answering_handlers_answer_once :
  forall (req : Request) (o : outcome),
    Forall (fun h : Request -> prog =>
              responses (fed [o] (h req)) = 1%nat
              /\ uncaught_of (fed [o] (h req)) = None)
           answering_handlers.
Proof.
  intros req o. unfold answering_handlers.
  repeat (constructor;
          [ destruct o as [err|result]; unfold fed; simpl; split_tests;
            split; reflexivity | ]).
  constructor.
Qed.

(** X8.  Every route sends exactly one statement per request, whatever it
    is fed, except the Assets create, which sends none (guard), one (lookup)
    or two (lookup and INSERT). *)
Theorem one_statement_per_request :
  forall (req : Request) (os : list outcome),
    Forall (fun route =>
              statements os (snd route req) = 1%nat
              \/ (fst route = (POST, "/api/Assets")
                  /\ (statements os (snd route req) <= 2)%nat))
           routes.
Proof.
  intros req os. unfold routes, statements.
  repeat
    (constructor;
     [ cbn [fst snd];
       first
         [ left; destruct os as [|[err|result] os']; unfold fed; simpl;
           split_tests; reflexivity
         | left; unfold fed, User.login;
           destruct os as [|[err|[[|row0 rows]|p]] os']; simpl;
           split_tests; reflexivity
         | right; split; [reflexivity|];
           unfold fed, Assets.create;
           destruct (negb (ToBoolean (field req "location_id"))
                     || isNaN (field req "location_id"));
           [ simpl; lia | ];
           destruct os as [|[err|[[|row0 rows]|p]] [|[err'|result'] os']];
           simpl; lia ]
     | ]).
  constructor.
Qed.

(** X9.  The Assets create sends its INSERT only after a location lookup
    that returned a row: whenever the INSERT is among the statements, the
    first answer was a non-empty row set and the statements are the lookup
    and the INSERT, in that order. *)
Theorem insert_only_after_location_found :
  forall (req : Request) (os : list outcome),
    In Assets.insertSQL (fst <$> queries_of (fed os (Assets.create req))) ->
    exists row0 rest os',
      os = Succeeded (RowDataPackets (row0 :: rest)) :: os'
      /\ queries_of (fed os (Assets.create req))
         = [ (Assets.checkLocationSQL, Array [field req "location_id"]);
             (Assets.insertSQL, Array (asset_values req)) ].
Proof.
  intros req os. unfold fed, Assets.create.
  assert (Hne : Assets.insertSQL <> Assets.checkLocationSQL)
    by (vm_compute; discriminate).
  destruct (negb (ToBoolean (field req "location_id")) || isNaN (field req "location_id")).
  { simpl. intros []. }
  destruct os as [|[err|[[|row0 rows]|p]] os']; simpl;
    try (intros [H|[]]; congruence).
  intros _. exists row0, rows, os'. split; [reflexivity|].
  destruct os' as [|[err|result] os'']; reflexivity.
Qed.

Lemma insert_only_after_location_found_witness :
  In Assets.insertSQL
     (fst <$> queries_of
        (fed [Succeeded (RowDataPackets [ {[ "name" := VString "HQ" ]} ]);
              Succeeded (Ok {| affectedRows := 1; insertId := 5 |})]
             (Assets.create projector)))
  /\ exists row0 rest os',
      [Succeeded (RowDataPackets [ {[ "name" := VString "HQ" ]} ]);
       Succeeded (Ok {| affectedRows := 1; insertId := 5 |})]
      = Succeeded (RowDataPackets (row0 :: rest)) :: os'.
Proof.
  assert (H : In Assets.insertSQL
     (fst <$> queries_of
        (fed [Succeeded (RowDataPackets [ {[ "name" := VString "HQ" ]} ]);
              Succeeded (Ok {| affectedRows := 1; insertId := 5 |})]
             (Assets.create projector)))) by (right; left; reflexivity).
  split; [exact H|].
  destruct (insert_only_after_location_found _ _ H) as (row0 & rest & os' & Hos & _).
  exists row0, rest, os'. exact Hos.
Defined.

(** X10.  In the Assets INSERT, [purchase_date], [purchase_price] and
    [last_maintenance_date] are bound as NULL unless they are truthy: a price
    of 0 or an empty date is written NULL, and none of the three is ever
    bound as 0, the empty string, false or undefined. *)
Theorem asset_create_falsy_fields_bound_null :
  forall (req : Request) (row0 : gmap string value)
         (rest : list (gmap string value)) (os : list outcome),
    ToBoolean (field req "location_id") = true ->
    isNaN (field req "location_id") = false ->
    exists purchase_date purchase_price last_maintenance_date tail,
      fed (Succeeded (RowDataPackets (row0 :: rest)) :: os) (Assets.create req)
      = EvQuery Assets.checkLocationSQL (Array [field req "location_id"])
        :: EvQuery Assets.insertSQL
             (Array [ field req "location_id"; field req "name";
                      field req "description"; purchase_date; purchase_price;
                      field req "serial_number"; field req "category";
                      field req "condition"; last_maintenance_date ])
        :: tail
      /\ Forall (fun v => v = VNull \/ ToBoolean v = true)
                [purchase_date; purchase_price; last_maintenance_date]
      /\ (field req "purchase_price" = num 0 -> purchase_price = VNull)
      /\ (field req "purchase_date" = VString "" -> purchase_date = VNull).
Proof.
  intros req row0 rest os Htruthy Hnum.
  unfold fed, Assets.create. rewrite Htruthy, Hnum. simpl.
  eexists _, _, _, _. split; [reflexivity|]. split; [|split].
  - assert (Hor : forall v, or_else v VNull = VNull \/ ToBoolean (or_else v VNull) = true).
    { intros v. unfold or_else. destruct (ToBoolean v) eqn:E; auto. }
    repeat (constructor; [apply Hor|]). constructor.
  - intros ->. reflexivity.
  - intros ->. reflexivity.
Qed.

Lemma asset_create_falsy_fields_bound_null_witness :
  ToBoolean (field free_projector "location_id") = true
  /\ isNaN (field free_projector "location_id") = false
  /\ exists tail,
      fed [Succeeded (RowDataPackets [ {[ "name" := VString "HQ" ]} ])]
          (Assets.create free_projector)
      = EvQuery Assets.checkLocationSQL (Array [num 1])
        :: EvQuery Assets.insertSQL
             (Array [ num 1; VString "Projector"; VUndefined; VNull; VNull;
                      VUndefined; VUndefined; VUndefined; VNull ])
        :: tail.
Proof.
  split; [reflexivity|]. split; [reflexivity|].
  destruct (asset_create_falsy_fields_bound_null
              free_projector {[ "name" := VString "HQ" ]} [] [])
    as (d & p & m & tail & Htrace & _ & Hprice & Hdate); [reflexivity|reflexivity|].
  exists tail. rewrite Htrace.
  rewrite (Hprice eq_refl), (Hdate eq_refl).
  injection Htrace as _ _ Hm _. subst m. reflexivity.
Defined.

(** X11.  For an integer [location_id], the Assets create refuses 0 with
    the 400 and sends nothing; any other integer passes the guard and is
    looked up as it is. *)
Theorem asset_guard_on_integer_ids :
  forall (req : Request) (z : Z) (os : list outcome),
    field req "location_id" = num z ->
    if z =? 0
    then fed os (Assets.create req)
         = [ EvResponse 400 (message_only "Invalid or missing location_id") ]
    else exists tail,
        fed os (Assets.create req)
        = EvQuery Assets.checkLocationSQL (Array [num z]) :: tail.
Proof.
  intros req z os Hid. unfold fed, Assets.create. rewrite Hid.
  unfold isNaN. simpl. destruct (z =? 0); simpl.
  - reflexivity.
  - eexists. reflexivity.
Qed.

Lemma asset_guard_on_integer_ids_witness :
  field (with_body [("location_id", num 0); ("name", VString "Projector")]) "location_id"
  = num 0
  /\ fed [] (Assets.create (with_body [("location_id", num 0);
                                       ("name", VString "Projector")]))
     = [ EvResponse 400 (message_only "Invalid or missing location_id") ].
Proof.
  split; [reflexivity|].
  exact (asset_guard_on_integer_ids
           (with_body [("location_id", num 0); ("name", VString "Projector")])
           0 [] eq_refl).
Defined.

(** X12.  The login raises and leaves the request unanswered on a
    database error and on a username that matches no row; whenever it does
    answer, the answer is the 401 or the 200, never the 500 of the branch
    for an invalid username. *)
Theorem login_answers_401_200_or_nothing :
  forall (request : Request) (err : MysqlError) (os : list outcome),
    let sent := EvQuery "select password from User where username=?"
                        (Scalar (field request "username")) in
    fed [Failed err] (User.login request) = [ sent; EvUncaught SyntaxError ]
    /\ fed [no_rows] (User.login request) = [ sent; EvUncaught TypeError ]
    /\ match response_of (fed os (User.login request)) with
       | None => True
       | Some (status, payload) =>
           (status = 401 /\ payload = text "Unaurthorized, invalid password")
           \/ (status = 200 /\ payload = text "Auth Successfully, Access Granted!!")
       end.
Proof.
  intros request err os sent. subst sent.
  split; [reflexivity|]. split; [reflexivity|].
  unfold fed, User.login.
  destruct os as [|[e|[[|row0 rows]|q]] os']; simpl; try exact I.
  destruct (loose_neq _ _); simpl; [left|right]; split; reflexivity.
Qed.

(** X13.  The comparison of passwords is [!=]: a user whose stored password
    is NULL is granted access by a request that carries no password (or a
    null one). *)
Theorem login_null_password_granted :
  forall (request : Request) (row0 : gmap string value)
         (rest : list (gmap string value)),
    (column row0 "password" = VNull \/ column row0 "password" = VUndefined) ->
    (field request "password" = VUndefined \/ field request "password" = VNull) ->
    fed [Succeeded (RowDataPackets (row0 :: rest))] (User.login request)
    = [ EvQuery "select password from User where username=?"
                (Scalar (field request "username"));
        EvResponse 200 (text "Auth Successfully, Access Granted!!") ].
Proof.
  intros request row0 rest Hstored Hgiven. unfold fed, User.login. simpl.
  destruct Hstored as [-> | ->], Hgiven as [-> | ->]; reflexivity.
Qed.

Lemma login_null_password_granted_witness :
  (column {[ "password" := VNull ]} "password" = VNull
   \/ column {[ "password" := VNull ]} "password" = VUndefined)
  /\ (field (with_body [("username", VString "alice")]) "password" = VUndefined
      \/ field (with_body [("username", VString "alice")]) "password" = VNull)
  /\ response_of (fed [Succeeded (RowDataPackets [ {[ "password" := VNull ]} ])]
                      (User.login (with_body [("username", VString "alice")])))
     = Some (200, text "Auth Successfully, Access Granted!!").
Proof.
  split; [left; reflexivity|]. split; [left; reflexivity|].
  rewrite (login_null_password_granted
             (with_body [("username", VString "alice")])
             {[ "password" := VNull ]} []);
    [ reflexivity | left; reflexivity | left; reflexivity ].
Defined.

Lemma append_cons (a : ascii) (x s : string) : String a x +:+ s = String a (x +:+ s).
Proof. reflexivity. Qed.

Lemma read_decimal_trailing (s : string) :
  trailing_text s = true -> read_decimal s = Decimal.Nil.
Proof.
  destruct s as [|a s']; [reflexivity|].
  destruct a as [[|] [|] [|] [|] [|] [|] [|] [|]]; intros H;
    try discriminate H; reflexivity.
Qed.

Lemma read_decimal_digits_then (d : Decimal.uint) (s : string) :
  trailing_text s = true ->
  read_decimal (DecimalString.NilEmpty.string_of_uint d +:+ s) = d.
Proof.
  intros Hs. induction d; simpl DecimalString.NilEmpty.string_of_uint;
    [ now apply read_decimal_trailing | .. ];
    rewrite append_cons; simpl read_decimal; rewrite IHd; reflexivity.
Qed.

Lemma parse_unsigned_digits_then (neg : bool) (d : Decimal.uint) (s : string) :
  d <> Decimal.Nil ->
  trailing_text s = true ->
  parse_unsigned neg (DecimalString.NilEmpty.string_of_uint d +:+ s)
  = Int (apply_sign neg (Z.of_uint d)).
Proof.
  intros Hd Hs.
  assert (E : parse_unsigned neg (DecimalString.NilEmpty.string_of_uint d +:+ s)
              = match read_decimal (DecimalString.NilEmpty.string_of_uint d +:+ s) with
                | Decimal.Nil => NaN
                | d' => Int (apply_sign neg (Z.of_uint d'))
                end).
  { destruct d as [|d|d|d|d|d|d|d|d|d|d]; try congruence; try reflexivity.
    destruct d; try reflexivity.
    destruct s as [|a s']; [reflexivity|].
    destruct a as [[|] [|] [|] [|] [|] [|] [|] [|]];
      try discriminate Hs; reflexivity. }
  rewrite E, read_decimal_digits_then by assumption. destruct d; congruence.
Qed.

(** [parseInt] stops at the first character that is not a digit. *)
Lemma parseInt_ignores_trailing_text (z : Z) (s : string) :
  safe_integer z = true ->
  trailing_text s = true ->
  parseInt_string (NumberToString (Int z) +:+ s) = Int z.
Proof.
  intros _ Hs.
  pose proof DecimalPos.Unsigned.to_uint_nonnil as Hnonnil.
  destruct z as [|p|p]; unfold NumberToString; simpl Z.to_int;
    unfold DecimalString.NilZero.string_of_int.
  - change (parseInt_string (DecimalString.NilEmpty.string_of_uint (Decimal.D0 Decimal.Nil) +:+ s)
            = Int 0).
    transitivity (parse_unsigned false
                    (DecimalString.NilEmpty.string_of_uint (Decimal.D0 Decimal.Nil) +:+ s)).
    + reflexivity.
    + rewrite parse_unsigned_digits_then by (assumption || discriminate). reflexivity.
  - rewrite string_of_positive.
    transitivity (parse_unsigned false
                    (DecimalString.NilEmpty.string_of_uint (Pos.to_uint p) +:+ s)).
    + specialize (Hnonnil p). destruct (Pos.to_uint p); try congruence; reflexivity.
    + rewrite parse_unsigned_digits_then by (assumption || apply Hnonnil).
      unfold Z.of_uint. now rewrite DecimalPos.Unsigned.of_to.
  - rewrite string_of_positive, append_cons, parseInt_minus.
    rewrite parse_unsigned_digits_then by (assumption || apply Hnonnil).
    unfold Z.of_uint. now rewrite DecimalPos.Unsigned.of_to.
Qed.

(** X14.  A path identifier followed by other text is served as the
    integer it starts with, for an integer of the safe range: the Church
    read and delete and the Locations delete bind that integer, and the
    Person read spells that integer, not the text. *)
Theorem identifier_followed_by_text_is_served :
  forall (z : Z) (s : string) (os : list outcome),
    safe_integer z = true ->
    trailing_text s = true ->
    (exists tail,
        fed os (Church.get_by_id (with_param "churchId" (NumberToString (Int z) +:+ s)))
        = EvQuery "SELECT * FROM Church WHERE churchId = ?" (Array [num z]) :: tail)
    /\ (exists tail,
        fed os (Church.delete_by_id (with_param "id" (NumberToString (Int z) +:+ s)))
        = EvQuery "DELETE FROM Church WHERE churchId = ?" (Array [num z]) :: tail)
    /\ (exists tail,
        fed os (Locations.delete_by_id (with_param "id" (NumberToString (Int z) +:+ s)))
        = EvQuery "DELETE FROM Locations WHERE location_id = ?" (Array [num z]) :: tail)
    /\ (exists tail,
        fed os (Person.get_by_id (with_param "id" (NumberToString (Int z) +:+ s)))
        = EvQuery ("select * from Person where personId=" +:+ NumberToString (Int z) +:+ "")
                  Absent :: tail).
Proof.
  intros z s os Hz Hs.
  pose proof (parseInt_ignores_trailing_text z s Hz Hs) as Hparse.
  repeat split; eexists; unfold fed, Church.get_by_id, Church.delete_by_id,
    Locations.delete_by_id, Person.get_by_id.
  - change (parseInt (param (with_param "churchId" (NumberToString (Int z) +:+ s)) "churchId"))
      with (parseInt_string (NumberToString (Int z) +:+ s)).
    rewrite Hparse. reflexivity.
  - change (parseInt (param (with_param "id" (NumberToString (Int z) +:+ s)) "id"))
      with (parseInt_string (NumberToString (Int z) +:+ s)).
    rewrite Hparse. reflexivity.
  - change (parseInt (param (with_param "id" (NumberToString (Int z) +:+ s)) "id"))
      with (parseInt_string (NumberToString (Int z) +:+ s)).
    rewrite Hparse. reflexivity.
  - change (parseInt (param (with_param "id" (NumberToString (Int z) +:+ s)) "id"))
      with (parseInt_string (NumberToString (Int z) +:+ s)).
    rewrite Hparse. reflexivity.
Qed.

Lemma identifier_followed_by_text_is_served_witness :
  safe_integer 12 = true
  /\ trailing_text "abc" = true
  /\ exists tail,
      fed [] (Church.get_by_id (with_param "churchId" "12abc"))
      = EvQuery "SELECT * FROM Church WHERE churchId = ?" (Array [num 12]) :: tail.
Proof.
  split; [reflexivity|]. split; [reflexivity|].
  destruct (identifier_followed_by_text_is_served 12 "abc" [] eq_refl eq_refl) as [H _].
  exact H.
Defined.

(** [parseInt] of a text that starts no integer. *)
Lemma parseInt_not_an_identifier (s : string) :
  not_an_identifier s = true -> parseInt_string s = NaN.
Proof.
  destruct s as [|a s']; [reflexivity|].
  destruct a as [[|] [|] [|] [|] [|] [|] [|] [|]]; intros H;
    try discriminate H; reflexivity.
Qed.

(** X15.  A path identifier that starts no integer is not refused: the
    Church read and the Locations delete bind [NaN], the Person read sends
    [personId=NaN], and the handler answers according to what the executor
    makes of it. *)
Theorem text_identifier_is_sent_as_NaN :
  forall (s : string) (os : list outcome),
    not_an_identifier s = true ->
    (exists tail,
        fed os (Church.get_by_id (with_param "churchId" s))
        = EvQuery "SELECT * FROM Church WHERE churchId = ?" (Array [VNumber NaN]) :: tail)
    /\ (exists tail,
        fed os (Locations.delete_by_id (with_param "id" s))
        = EvQuery "DELETE FROM Locations WHERE location_id = ?" (Array [VNumber NaN])
          :: tail)
    /\ (exists tail,
        fed os (Person.get_by_id (with_param "id" s))
        = EvQuery "select * from Person where personId=NaN" Absent :: tail)
    /\ response_of (fed [no_rows] (Church.get_by_id (with_param "churchId" s)))
       = Some (404, message_only "Church not found").
Proof.
  intros s os Hs. pose proof (parseInt_not_an_identifier s Hs) as Hparse.
  repeat split; try eexists; unfold fed, Church.get_by_id, Locations.delete_by_id,
    Person.get_by_id.
  - change (parseInt (param (with_param "churchId" s) "churchId")) with (parseInt_string s).
    rewrite Hparse. reflexivity.
  - change (parseInt (param (with_param "id" s) "id")) with (parseInt_string s).
    rewrite Hparse. reflexivity.
  - change (parseInt (param (with_param "id" s) "id")) with (parseInt_string s).
    rewrite Hparse. reflexivity.
Qed.

Lemma text_identifier_is_sent_as_NaN_witness :
  not_an_identifier "abc" = true
  /\ exists tail,
      fed [] (Person.get_by_id (with_param "id" "abc"))
      = EvQuery "select * from Person where personId=NaN" Absent :: tail.
Proof.
  split; [reflexivity|].
  destruct (text_identifier_is_sent_as_NaN "abc" [] eq_refl) as (_ & _ & H & _).
  exact H.
Defined.
